(** * ruinous-twitch-ui: the addon and overlay REST handlers

    A shallow embedding of [src/api/addons.js] and [src/api/overlays.js]:
    the three GET handlers, the helper [fetchUserAddons], the route tables
    built by [addAddonAPIs] and [addOverlayAPIs], and the properties the
    specification states about them.

    JavaScript objects are finite maps from property names to values, a
    thrown exception is the [Throw] branch of a small error monad, and the
    database is a record of tables queried the way the Prisma calls of the
    source query them. *)

From Stdlib Require Import ZArith String Ascii List Sorted Lia.
From stdpp Require Import base option list gmap strings.

Set Warnings "-register-all".
Local Open Scope Z_scope.

(** ** JavaScript values and objects *)

(** The values the handlers touch.  Numbers are integers: the only numbers
    the handlers compute with are ksuid timestamps. *)
Inductive value :=
| VUndefined
| VNull
| VBool (b : bool)
| VNum (n : Z)
| VStr (s : string)
| VArr (l : list value)
| VObj (o : gmap string value).

(** An object is the table of its own properties.  The properties every
    object inherits ([constructor], [toString], ...) are left out: the
    handlers read and write fixed names that are none of them, and names
    computed from an [addonId], which [ksuid.parse] has accepted by then
    or which the schema fills with ksuids. *)
Abbreviation object := (gmap string value).

(** [o.k]: reading a property that is absent gives [undefined]. *)
Definition get (o : object) (k : string) : value :=
  default VUndefined (o !! k).

(** [v !== undefined] *)
Definition is_defined (v : value) : bool :=
  match v with VUndefined => false | _ => true end.

(** [v === true] *)
Definition is_true (v : value) : bool :=
  match v with VBool true => true | _ => false end.

(** [v === s] for a string literal [s]. *)
Definition is_str (s : string) (v : value) : bool :=
  match v with VStr t => String.eqb s t | _ => false end.

(** ** Exceptions and the error monad *)

(** [NotFound] is the exception class of [lib/exceptions.js]; the others
    are what the runtime, the ksuid package and the database client
    raise. *)
Inductive exn :=
| NotFound (msg : string)
| SyntaxError
| TypeError
| KsuidError
| DbError (msg : string).

Inductive Exc (A : Type) :=
| Throw (e : exn)
| Return (a : A).
Arguments Throw {A} e.
Arguments Return {A} a.

#[global] Instance Exc_ret : MRet Exc := @Return.
#[global] Instance Exc_bind : MBind Exc := fun A B f m =>
  match m with
  | Throw e => Throw e
  | Return a => f a
  end.

(** [try { m } catch (error) { h(error) }] *)
Definition try_catch {A} (m : Exc A) (h : exn -> Exc A) : Exc A :=
  match m with
  | Throw e => h e
  | Return a => Return a
  end.

(** A partial library call that throws [e] where it has no result. *)
Definition or_throw {A} (e : exn) (r : option A) : Exc A :=
  match r with
  | Some a => Return a
  | None => Throw e
  end.

(** [l.forEach(f)] for a callback that updates its argument in place and
    may throw: the entries are visited in order and the first exception
    ends the loop. *)
Fixpoint forEach {A} (f : A -> Exc A) (l : list A) : Exc (list A) :=
  match l with
  | [] => Return []
  | x :: l' => y ← f x; ys ← forEach f l'; Return (y :: ys)
  end.

(** [v.k] on an arbitrary value, for the column names read here: [null]
    and [undefined] have no properties, the other primitives have none
    of these. *)
Definition prop (v : value) (k : string) : Exc value :=
  match v with
  | VObj o => Return (get o k)
  | VNull | VUndefined => Throw TypeError
  | _ => Return VUndefined
  end.

(** [v.k = x] on an arbitrary value.  The sources are ES modules, hence
    strict code, where assigning to a property of a primitive throws. *)
Definition set_prop (v : value) (k : string) (x : value) : Exc value :=
  match v with
  | VObj o => Return (VObj (<[k := x]> o))
  | _ => Throw TypeError
  end.

(** ** [Array.prototype.sort] *)

(** The comparator's result is a number or [NaN] ([None]), and [NaN]
    counts as zero.  The sort is stable; for a consistent comparator the
    result is the one of this insertion sort. *)
Definition goes_before {A} (cmp : A -> A -> option Z) (a b : A) : bool :=
  match cmp a b with
  | Some d => d <=? 0
  | None => true
  end.

Fixpoint sort_insert {A} (cmp : A -> A -> option Z) (x : A) (l : list A) : list A :=
  match l with
  | [] => [x]
  | y :: l' => if goes_before cmp x y then x :: y :: l' else y :: sort_insert cmp x l'
  end.

Fixpoint sort {A} (cmp : A -> A -> option Z) (l : list A) : list A :=
  match l with
  | [] => []
  | x :: l' => sort_insert cmp x (sort cmp l')
  end.

(** Ascending order of a list by a key its elements carry: [keyed a k]
    says that [k] is the key of [a]. *)
Definition has_key {A} (keyed : A -> Z -> Prop) (a : A) : Prop :=
  exists k, keyed a k.

Definition key_le {A} (keyed : A -> Z -> Prop) (a b : A) : Prop :=
  exists ka kb, keyed a ka /\ keyed b kb /\ ka <= kb.

(** ** Requests and responses *)

(** The route parameters Express extracts from the path ([req.params]);
    they are always strings. *)
Record Params := { key : string; overlayId : string }.

(** What a handler reads of a request: its route parameters, and the
    session token [getAuthorizedUser] inspects. *)
Record Request := { params : Params; token : option string }.

(** What a handler sends: [res.json(body)], or one of the two answers of
    the shared error responder. *)
Inductive Response :=
| Json (body : value)
| Json404 (reason : string)
| JsonFailure.

(** Modelled from the spec: [dbErrResponse] of [lib/db.js], which is not
    among the sources.  "A single NotFound exception type is thrown for
    missing records and translated to an HTTP 404 JSON body by a shared
    error responder; all other database errors pass through the same
    responder for a generic failure response." *)
Definition dbErrResponse (error : exn) : Response :=
  match error with
  | NotFound msg => Json404 msg
  | _ => JsonFailure
  end.

(** [try { m } catch (error) { dbErrResponse(error, res); }], the frame
    of every handler. *)
Definition respond (m : Exc Response) : Exc Response :=
  try_catch m (fun error => Return (dbErrResponse error)).

(** ** The database *)

(** The queries the handlers issue; each may fail on its own. *)
Inductive query :=
| AddonFindMany
| AddonFindFirst
| UserAddonsFindMany
| UserAddonsFindUnique.

(** Rows are objects, one property per column.  [fault] says which
    queries the database client rejects, and with what message. *)
Record Db := {
  twitchAddon : list object;
  twitchUserAddons : list object;
  twitchUser : list object;
  fault : query -> option string
}.

(** Running a query: the client's rejection, if any, is thrown at the
    [await]. *)
Definition run {A} (db : Db) (q : query) (rows : A) : Exc A :=
  match fault db q with
  | Some msg => Throw (DbError msg)
  | None => Return rows
  end.

(** Equality of two column values, as the database compares them. *)
Definition col_eq (a b : value) : bool :=
  match a, b with
  | VStr x, VStr y => String.eqb x y
  | VNum x, VNum y => Z.eqb x y
  | VBool x, VBool y => Bool.eqb x y
  | _, _ => false
  end.

(** [db.twitchAddon.findMany({})] *)
Definition twitchAddon_findMany (db : Db) : Exc (list object) :=
  run db AddonFindMany (twitchAddon db).

(** The filter [{ OR: [ { slug: k }, { addonId: k } ] }]. *)
Definition slug_or_id (k : string) (row : object) : bool :=
  is_str k (get row "slug") || is_str k (get row "addonId").

(** [db.twitchAddon.findFirst({ where: { OR: [...] } })]: the first
    matching row, or [null]. *)
Definition twitchAddon_findFirst (db : Db) (k : string) : Exc (option object) :=
  run db AddonFindFirst (List.find (slug_or_id k) (twitchAddon db)).

(** The UserAddon rows of the user [userId]. *)
Definition rows_of_user (db : Db) (userId : string) : list object :=
  List.filter (fun row => is_str userId (get row "userId")) (twitchUserAddons db).

(** [db.twitchUserAddons.findMany({ where: { userId } })] *)
Definition twitchUserAddons_findMany_userId (db : Db) (userId : string)
  : Exc (list object) :=
  run db UserAddonsFindMany (rows_of_user db userId).

(** The filter [{ userId_addonId: { userId, addonId } }]. *)
Definition userId_addonId (userId : string) (addonId : value) (row : object) : bool :=
  is_str userId (get row "userId") && col_eq addonId (get row "addonId").

(** [db.twitchUserAddons.findUnique({ where: { userId_addonId: ... } })]:
    the row with that pair, or [null]. *)
Definition twitchUserAddons_findUnique (db : Db) (userId : string) (addonId : value)
  : Exc (option object) :=
  run db UserAddonsFindUnique
      (List.find (userId_addonId userId addonId) (twitchUserAddons db)).

(** The relation fields filled in by [include: { addon: true, owner: true }]:
    the addon row and the user row the UserAddon row refers to, found by
    the column the two tables share ([addonId], [userId]); [null] when
    there is none. *)
Definition related (table : list object) (column : string) (row : object) : value :=
  match List.find (fun r => col_eq (get row column) (get r column)) table with
  | Some r => VObj r
  | None => VNull
  end.

Definition include_addon_owner (db : Db) (row : object) : object :=
  <["owner" := related (twitchUser db) "userId" row]>
    (<["addon" := related (twitchAddon db) "addonId" row]> row).

(** The UserAddon rows whose [overlayId] is [id]. *)
Definition rows_with_overlayId (db : Db) (id : string) : list object :=
  List.filter (fun row => is_str id (get row "overlayId")) (twitchUserAddons db).

(** [db.twitchUserAddons.findMany({ where: { overlayId }, include: ... })] *)
Definition twitchUserAddons_findMany_overlayId (db : Db) (id : string)
  : Exc (list object) :=
  run db UserAddonsFindMany (include_addon_owner db <$> rows_with_overlayId db id).

(** ** What the handlers import *)

(** The handlers are written against these; none of them is defined in
    the files embedded here.
    - [getAuthorizedUser(req, false)] of [lib/auth.js]: the id of the user
      the request's token belongs to, or [null];
    - [JSON.parse], with its coercion of the argument, [None] where it
      throws;
    - [ksuid.parse(id).timestamp], [None] where [ksuid.parse] throws;
    - [config.get('overlayBase')], as a template literal prints it;
    - the coercions of the language to a string and to a number ([None]
      is [NaN]), on values that are not yet of the target type. *)
Class Imports := {
  getAuthorizedUser : Request -> option string;
  JSON_parse : value -> option value;
  ksuid_timestamp : value -> option Z;
  overlayBase : string;
  ToString : value -> string;
  ToNumber : value -> option Z
}.

(** ** The handlers *)

Section Api.
Context `{Imports}.

Definition to_string (v : value) : string :=
  match v with VStr s => s | _ => ToString v end.

Definition to_number (v : value) : option Z :=
  match v with VNum n => Some n | _ => ToNumber v end.

(** [a - b]; [None] is [NaN]. *)
Definition minus (a b : value) : option Z :=
  x ← to_number a; y ← to_number b; Some (x - y).

Definition parse_json (v : value) : Exc value :=
  or_throw SyntaxError (JSON_parse v).

Definition parse_ksuid (v : value) : Exc Z :=
  or_throw KsuidError (ksuid_timestamp v).

(** [`${config.get('overlayBase')}/${id}`] *)
Definition overlay_url (id : value) : string :=
  overlayBase +:+ "/" +:+ to_string id.

(** [data.forEach(addon => result[addon.addonId] = addon)] on
    [result = {}]: a later row replaces an earlier one under the same
    key.  This is the table of own properties for every key but
    [__proto__], whose assignment replaces the prototype of [result] and
    stores nothing; the handlers read the table only under an [addonId]
    that [ksuid.parse] has accepted, which [__proto__] is not. *)
Definition index_by_addonId (data : list object) : object :=
  foldl (fun result addon => <[to_string (get addon "addonId") := VObj addon]> result)
        ∅ data.

Definition fetchUserAddons (db : Db) (req : Request) : Exc object :=
  match getAuthorizedUser req with
  | None => Return ∅
  | Some userId =>
      data ← twitchUserAddons_findMany_userId db userId;
      Return (index_by_addonId data)
  end.

(** The callback of [result.forEach] in [getAddonList].  [installed] is
    written whether or not there is a user: without one [userAddons] is
    empty and [userInfo] is [undefined]. *)
Definition decorate (userAddons : object) (entry : object) : Exc object :=
  timestamp ← parse_ksuid (get entry "addonId");
  let entry := <["timestamp" := VNum timestamp]> entry in
  let userInfo := get userAddons (to_string (get entry "addonId")) in
  let entry := <["installed" := VBool (is_defined userInfo)]> entry in
  entry ←
    (if is_true (get entry "installed") then
       configJSON ← prop userInfo "configJSON";
       config ← parse_json configJSON;
       let entry := <["config" := config]> entry in
       id ← prop userInfo "overlayId";
       Return (if is_str "" id then entry
               else <["overlayUrl" := VStr (overlay_url id)]> entry)
     else Return entry);
  if is_defined (get entry "configSchema") then
    schema ← parse_json (get entry "configSchema");
    Return (<["configSchema" := schema]> entry)
  else Return entry.

(** [(a, b) => a.timestamp - b.timestamp] *)
Definition by_timestamp (a b : object) : option Z :=
  minus (get a "timestamp") (get b "timestamp").

(** The [try] block of [getAddonList]. *)
Definition getAddonList_try (db : Db) (req : Request) : Exc Response :=
  result ← twitchAddon_findMany db;
  userAddons ← fetchUserAddons db req;
  result ← forEach (decorate userAddons) result;
  let result := sort by_timestamp result in
  Return (Json (VArr (VObj <$> result))).

Definition getAddonList (db : Db) (req : Request) : Exc Response :=
  respond (getAddonList_try db req).

(** The [try] block of [getAddonById].  [installed] is written whether
    or not there is a user; the test [body.installed === true] that
    follows is the test [userConfig !== null].  [body || {}] is [body]:
    an object is never falsy. *)
Definition getAddonById_try (db : Db) (req : Request) : Exc Response :=
  let userId := getAuthorizedUser req in
  found ← twitchAddon_findFirst db (key (params req));
  match found with
  | None => Throw (NotFound ("no such addon '" +:+ key (params req) +:+ "'"))
  | Some body =>
      schema ← parse_json (get body "configSchema");
      let body := <["configSchema" := schema]> body in
      userConfig ←
        match userId with
        | Some userId => twitchUserAddons_findUnique db userId (get body "addonId")
        | None => Return None
        end;
      let body := <["installed" := VBool (bool_decide (is_Some userConfig))]> body in
      body ←
        match userConfig with
        | Some userConfig =>
            let overId := get userConfig "overlayId" in
            let body :=
              <["overlayUrl" := if is_str "" overId then VStr ""
                                else VStr (overlay_url overId)]> body in
            config ← parse_json (get userConfig "configJSON");
            Return (<["config" := config]> body)
        | None => Return body
        end;
      Return (Json (VObj body))
  end.

Definition getAddonById (db : Db) (req : Request) : Exc Response :=
  respond (getAddonById_try db req).

(** The [try] block of [getOverlayInfo]; [data.length !== 1] is the
    second branch of the match. *)
Definition getOverlayInfo_try (db : Db) (req : Request) : Exc Response :=
  data ← twitchUserAddons_findMany_overlayId db (overlayId (params req));
  match data with
  | [body] =>
      schema ← prop (get body "addon") "configSchema";
      schema ← parse_json schema;
      addon ← set_prop (get body "addon") "configSchema" schema;
      let body := <["addon" := addon]> body in
      configJSON ← parse_json (get body "configJSON");
      let body := <["configJSON" := configJSON]> body in
      Return (Json (VObj body))
  | _ => Throw (NotFound ("no such overlay '" +:+ overlayId (params req) +:+ "'"))
  end.

Definition getOverlayInfo (db : Db) (req : Request) : Exc Response :=
  respond (getOverlayInfo_try db req).

(** The [try] block of [reportInvalidAPI]. *)
Definition reportInvalidAPI_try (db : Db) (req : Request) : Exc Response :=
  Throw (NotFound "invalid API endpoint").

Definition reportInvalidAPI (db : Db) (req : Request) : Exc Response :=
  respond (reportInvalidAPI_try db req).

(** ** Routing *)

(** A route pattern, cut at its slashes: literal segments and [:name]
    parameters. *)
Inductive segment :=
| Lit (s : string)
| Param (name : string).

Record Route := {
  pattern : list segment;
  handler : Db -> Request -> Exc Response
}.

(** The non-empty pieces of a path between slashes; Express does not
    tell a trailing slash from none.  The path is the path name of the
    request, without its query string, and is taken as the routes spell
    it: this agrees with Express on paths in the case of the routes and
    without a doubled slash (Express compares without regard to case and
    does not match a doubled slash). *)
Fixpoint segments_from (cur : string) (s : string) : list string :=
  match s with
  | EmptyString => if String.eqb cur "" then [] else [cur]
  | String c s' =>
      if Ascii.eqb c "/" then
        (if String.eqb cur "" then segments_from "" s'
         else cur :: segments_from "" s')
      else segments_from (cur +:+ String c "") s'
  end.

Definition segments (path : string) : list string := segments_from "" path.

Definition parse_pattern (path : string) : list segment :=
  (fun s => match s with
            | String ":" name => Param name
            | _ => Lit s
            end) <$> segments path.

(** [req.params[name] = v] *)
Definition set_param (name v : string) (p : Params) : Params :=
  if String.eqb name "key" then {| key := v; overlayId := overlayId p |}
  else if String.eqb name "overlayId" then {| key := key p; overlayId := v |}
  else p.

(** Matching a path against a pattern, segment by segment.  A parameter
    takes its segment as it stands and a literal is compared as written;
    Express decodes the percent escapes of a parameter first, so the two
    agree on segments without one. *)
Fixpoint match_route (pat : list segment) (path : list string) (p : Params)
  : option Params :=
  match pat, path with
  | [], [] => Some p
  | Lit s :: pat', x :: path' =>
      if String.eqb s x then match_route pat' path' p else None
  | Param name :: pat', x :: path' => match_route pat' path' (set_param name x p)
  | _, _ => None
  end.

(** [app.get(path, handler)]: routes are tried in the order they were
    added. *)
Definition app_get (path : string) (h : Db -> Request -> Exc Response)
           (app : list Route) : list Route :=
  app ++ [{| pattern := parse_pattern path; handler := h |}].

(** A GET request for [path]: the first matching route answers; [None]
    when no route of [app] matches. *)
Fixpoint dispatch (app : list Route) (db : Db) (path : string) (tok : option string)
  : option (Exc Response) :=
  match app with
  | [] => None
  | r :: app' =>
      match match_route (pattern r) (segments path) {| key := ""; overlayId := "" |} with
      | Some p => Some (handler r db {| params := p; token := tok |})
      | None => dispatch app' db path tok
      end
  end.

Definition addAddonAPIs (app : list Route) : list Route :=
  app_get "/api/v1/addons/:key" getAddonById
    (app_get "/api/v1/addons" getAddonList app).

Definition addOverlayAPIs (app : list Route) : list Route :=
  app_get "/api/v1/overlay/:overlayId" getOverlayInfo
    (app_get "/api/v1/overlay/" reportInvalidAPI app).

End Api.

(** ** Stand-ins for the libraries, to run the handlers on examples *)

(** The token is the user id. *)
Definition token_user (req : Request) : option string := token req.

Definition digit_value (c : ascii) : option Z :=
  let n := Z.of_nat (nat_of_ascii c) in
  if (48 <=? n) && (n <=? 57) then Some (n - 48) else None.

Fixpoint decimal (acc : Z) (s : string) : option Z :=
  match s with
  | EmptyString => Some acc
  | String c s' => d ← digit_value c; decimal (10 * acc + d) s'
  end.

(** [JSON.parse] on a few literals; everything else is rejected. *)
Definition json_literal (v : value) : option value :=
  match v with
  | VNull => Some VNull
  | VStr s =>
      if String.eqb s "null" then Some VNull
      else if String.eqb s "true" then Some (VBool true)
      else if String.eqb s "false" then Some (VBool false)
      else if String.eqb s "{}" then Some (VObj ∅)
      else if String.eqb s "[]" then Some (VArr [])
      else match s with
           | EmptyString | String "0" (String _ _) => None
           | _ => VNum <$> decimal 0 s
           end
  | _ => None
  end.

(** The base-62 digits of a ksuid: [0-9], [A-Z], [a-z]. *)
Definition base62_value (c : ascii) : option Z :=
  let n := Z.of_nat (nat_of_ascii c) in
  if (48 <=? n) && (n <=? 57) then Some (n - 48)
  else if (65 <=? n) && (n <=? 90) then Some (n - 55)
  else if (97 <=? n) && (n <=? 122) then Some (n - 61)
  else None.

Fixpoint base62 (acc : Z) (s : string) : option Z :=
  match s with
  | EmptyString => Some acc
  | String c s' => d ← base62_value c; base62 (62 * acc + d) s'
  end.

(** A ksuid is 27 base-62 digits for 20 bytes, the first four of which
    are the timestamp. *)
Definition ksuid_ts (v : value) : option Z :=
  match v with
  | VStr s =>
      if Nat.eqb (String.length s) 27 then
        n ← base62 0 s;
        if n <? 2 ^ 160 then Some (n / 2 ^ 128) else None
      else None
  | _ => None
  end.

(** The stand-ins together.  The coercions are never reached on the
    examples below, where every coerced value is already a string or a
    number. *)
Definition stand_in : Imports := {|
  getAuthorizedUser := token_user;
  JSON_parse := json_literal;
  ksuid_timestamp := ksuid_ts;
  overlayBase := "https://overlay.example";
  ToString := fun _ => "";
  ToNumber := fun _ => None
|}.

(** The same libraries behind a [getAuthorizedUser] that takes every
    request for one of the user [root]. *)
Definition everyone_is_root : Imports := {|
  getAuthorizedUser := fun _ => Some "root";
  JSON_parse := json_literal;
  ksuid_timestamp := ksuid_ts;
  overlayBase := "https://overlay.example";
  ToString := fun _ => "";
  ToNumber := fun _ => None
|}.

(** ** Vocabulary of the properties *)

(** The properties [decorate] may write. *)
Definition decorated_fields : list string :=
  ["timestamp"; "installed"; "config"; "overlayUrl"; "configSchema"].

(** [t] is the creation time of the entry [e]: the one its [addonId]
    embeds, which the entry also carries as [timestamp]. *)
Definition timestamped `{Imports} (e : object) (t : Z) : Prop :=
  ksuid_timestamp (get e "addonId") = Some t /\ e !! "timestamp" = Some (VNum t).

(** The user [u] has the UserAddon row [row] for the addon [a]. *)
Definition user_has (db : Db) (u a : string) (row : object) : Prop :=
  row ∈ twitchUserAddons db /\ get row "userId" = VStr u /\ get row "addonId" = VStr a.

(** The constraints the schema puts on the UserAddon table: [addonId] is
    a text column, and the pair of [userId] and [addonId] is unique. *)
Definition addonId_is_text (db : Db) : Prop :=
  forall row, row ∈ twitchUserAddons db -> exists a, get row "addonId" = VStr a.

Definition unique_userId_addonId (db : Db) : Prop :=
  forall r1 r2, r1 ∈ twitchUserAddons db -> r2 ∈ twitchUserAddons db ->
    get r1 "userId" = get r2 "userId" -> get r1 "addonId" = get r2 "addonId" ->
    r1 = r2.


(** The handlers of the API, each with its [try] block. *)
Definition api `{Imports}
  : list ((Db -> Request -> Exc Response) * (Db -> Request -> Exc Response)) :=
  [ (getOverlayInfo_try, getOverlayInfo);
    (reportInvalidAPI_try, reportInvalidAPI);
    (getAddonList_try, getAddonList);
    (getAddonById_try, getAddonById) ].

(** ** Sample data *)

Definition K1 : string := "0ujtsYcgvSTl8PAuAdqWYSMnLOv".
Definition K2 : string := "0ujsszwN8NRY24YaXiTIE2VWDTS".
Definition K3 : string := "0o5Fs0EELR0fUjHjbCnEtdUwQe3".

Definition addon_alerts : object :=
  list_to_map [("addonId", VStr K1); ("slug", VStr "alerts"); ("configSchema", VStr "[]")].
Definition addon_chat : object :=
  list_to_map [("addonId", VStr K3); ("slug", VStr "chat"); ("configSchema", VStr "{}")].
Definition addon_polls : object :=
  list_to_map [("addonId", VStr K2); ("slug", VStr "polls"); ("configSchema", VStr "{}")].

(** [u1] has installed the alerts addon without an overlay, [u2] the chat
    addon with the overlay [ov9]. *)
Definition u1_alerts : object :=
  list_to_map [("userId", VStr "u1"); ("addonId", VStr K1);
               ("configJSON", VStr "{}"); ("overlayId", VStr "")].
Definition u2_chat : object :=
  list_to_map [("userId", VStr "u2"); ("addonId", VStr K3);
               ("configJSON", VStr "12"); ("overlayId", VStr "ov9")].
Definition u3_polls : object :=
  list_to_map [("userId", VStr "u3"); ("addonId", VStr K2);
               ("configJSON", VStr "{}"); ("overlayId", VStr "ov9")].

Definition user (id : string) : object := list_to_map [("userId", VStr id)].

Definition no_fault (q : query) : option string := None.

Definition db0 : Db := {|
  twitchAddon := [addon_alerts; addon_chat];
  twitchUserAddons := [u1_alerts; u2_chat];
  twitchUser := [user "u1"; user "u2"];
  fault := no_fault
|}.

(** The same with the overlay id [ov9] given out twice. *)
Definition db_twice : Db := {|
  twitchAddon := [addon_alerts; addon_chat; addon_polls];
  twitchUserAddons := [u1_alerts; u2_chat; u3_polls];
  twitchUser := [user "u1"; user "u2"; user "u3"];
  fault := no_fault
|}.

Definition request (k id : string) (tok : option string) : Request :=
  {| params := {| key := k; overlayId := id |}; token := tok |}.

(** A database whose client rejects every query. *)
Definition db_down : Db := {|
  twitchAddon := [addon_alerts; addon_chat];
  twitchUserAddons := [u1_alerts; u2_chat];
  twitchUser := [user "u1"; user "u2"];
  fault := fun _ => Some "connection refused"
|}.

(** What the handlers answer on [db0]: the list for nobody and for [u1],
    the alerts addon for nobody and for [u1], the overlay [ov9]. *)
Definition chat_listed : object :=
  list_to_map [("addonId", VStr K3); ("slug", VStr "chat"); ("configSchema", VObj ∅);
               ("timestamp", VNum 94985761); ("installed", VBool false)].

Definition alerts_listed (installed : bool) : object :=
  list_to_map [("addonId", VStr K1); ("slug", VStr "alerts"); ("configSchema", VArr []);
               ("timestamp", VNum 107608047); ("installed", VBool installed)].

Definition list_for_nobody : value :=
  VArr [VObj chat_listed; VObj (alerts_listed false)].

Definition list_for_u1 : value :=
  VArr [VObj chat_listed; VObj (<["config" := VObj ∅]> (alerts_listed true))].

Definition list_for_u2 : value :=
  VArr [VObj (<["overlayUrl" := VStr "https://overlay.example/ov9"]>
                (<["config" := VNum 12]> (<["installed" := VBool true]> chat_listed)));
        VObj (alerts_listed false)].

(** The list on [db_twice], whose rows are not stored in creation order. *)
Definition list_twice : value :=
  VArr [VObj chat_listed;
        VObj (list_to_map [("addonId", VStr K2); ("slug", VStr "polls");
                           ("configSchema", VObj ∅); ("timestamp", VNum 107607557);
                           ("installed", VBool false)]);
        VObj (alerts_listed false)].

Definition alerts_found (installed : bool) : object :=
  list_to_map [("addonId", VStr K1); ("slug", VStr "alerts"); ("configSchema", VArr []);
               ("installed", VBool installed)].

Definition alerts_for_u1 : value :=
  VObj (<["overlayUrl" := VStr ""]> (<["config" := VObj ∅]> (alerts_found true))).

Definition chat_for_u2 : value :=
  VObj (list_to_map [("addonId", VStr K3); ("slug", VStr "chat"); ("configSchema", VObj ∅);
                     ("installed", VBool true); ("config", VNum 12);
                     ("overlayUrl", VStr "https://overlay.example/ov9")]).

Definition overlay_ov9 : value :=
  VObj (list_to_map
          [("userId", VStr "u2"); ("addonId", VStr K3); ("configJSON", VNum 12);
           ("overlayId", VStr "ov9");
           ("addon", VObj (<["configSchema" := VObj ∅]> addon_chat));
           ("owner", VObj (user "u2"))]).

(** [db0] with the UserAddon table out of reach: no rows, and both of
    its queries rejected. *)
Definition db0_without_user_addons : Db := {|
  twitchAddon := [addon_alerts; addon_chat];
  twitchUserAddons := [];
  twitchUser := [user "u1"; user "u2"];
  fault := fun q => match q with
                    | UserAddonsFindMany | UserAddonsFindUnique => Some "table locked"
                    | _ => None
                    end
|}.

(** A second row of [u1] for the alerts addon, with other settings, and
    a database that holds both. *)
Definition u1_alerts_again : object :=
  list_to_map [("userId", VStr "u1"); ("addonId", VStr K1);
               ("configJSON", VStr "12"); ("overlayId", VStr "ov7")].

Definition db_doubled : Db := {|
  twitchAddon := [addon_alerts; addon_chat];
  twitchUserAddons := [u1_alerts; u2_chat; u1_alerts_again];
  twitchUser := [user "u1"; user "u2"];
  fault := no_fault
|}.

(** The properties that depend on who asks. *)
Definition user_fields : list string := ["installed"; "config"; "overlayUrl"].

(** Two entries that differ at most in the properties of [user_fields]. *)
Definition same_addon (e1 e2 : object) : Prop :=
  forall k, k ∉ user_fields -> e1 !! k = e2 !! k.

(** A path segment: a string without a slash. *)
Fixpoint no_slash (s : string) : bool :=
  match s with
  | EmptyString => true
  | String c s' => negb (Ascii.eqb c "/") && no_slash s'
  end.

(** The request a route hands to its handler when its one parameter is
    bound; the parameter the route does not have stays empty, and no
    handler of the route reads it. *)
Definition routed (k id : string) (tok : option string) : Request :=
  {| params := {| key := k; overlayId := id |}; token := tok |}.

(** An addon row whose id is not a ksuid, one without a schema, and the
    databases that hold them next to the alerts addon. *)
Definition addon_broken : object :=
  list_to_map [("addonId", VStr "not-a-ksuid"); ("slug", VStr "broken");
               ("configSchema", VStr "{}")].

Definition addon_bare : object :=
  list_to_map [("addonId", VStr K2); ("slug", VStr "bare")].

Definition db_broken : Db := {|
  twitchAddon := [addon_alerts; addon_broken];
  twitchUserAddons := [u1_alerts];
  twitchUser := [user "u1"];
  fault := no_fault
|}.

Definition db_bare : Db := {|
  twitchAddon := [addon_alerts; addon_bare];
  twitchUserAddons := [u1_alerts];
  twitchUser := [user "u1"];
  fault := no_fault
|}.

Definition bare_listed : object :=
  list_to_map [("addonId", VStr K2); ("slug", VStr "bare");
               ("timestamp", VNum 107607557); ("installed", VBool false)].

Definition list_bare : value :=
  VArr [VObj bare_listed; VObj (alerts_listed false)].

(** The record of the chat addon for [u2], as an object. *)
Definition chat_record_u2 : object :=
  list_to_map [("addonId", VStr K3); ("slug", VStr "chat"); ("configSchema", VObj ∅);
               ("installed", VBool true); ("config", VNum 12);
               ("overlayUrl", VStr "https://overlay.example/ov9")].

(** What [decorate] needs of an addon row to go through: an [addonId]
    that [ksuid.parse] accepts, and a [configSchema] that parses when
    there is one. *)
Definition row_decorates `{Imports} (row : object) : Prop :=
  is_Some (ksuid_timestamp (get row "addonId")) /\
  (is_defined (get row "configSchema") = true ->
   is_Some (JSON_parse (get row "configSchema"))).

(** The settings of a UserAddon row parse. *)
Definition settings_parse `{Imports} (row : object) : Prop :=
  is_Some (JSON_parse (get row "configJSON")).

(** [addonId] is the key of the addon table. *)
Definition unique_addonId (db : Db) : Prop :=
  forall r1 r2, r1 ∈ twitchAddon db -> r2 ∈ twitchAddon db ->
    get r1 "addonId" = get r2 "addonId" -> r1 = r2.

(** A path segment that is the same before and after Express decodes
    it: no slash, no percent escape, and nothing of a query string or a
    fragment. *)
Fixpoint plain_segment (s : string) : bool :=
  match s with
  | EmptyString => true
  | String c s' =>
      negb (Ascii.eqb c "/") && negb (Ascii.eqb c "%") &&
      negb (Ascii.eqb c "?") && negb (Ascii.eqb c "#") && plain_segment s'
  end.

(** An addon row that already holds a [timestamp], a stale one. *)
Definition addon_stamped : object :=
  list_to_map [("addonId", VStr K2); ("slug", VStr "stamped");
               ("configSchema", VStr "{}"); ("timestamp", VNum 0)].

Definition db_stamped : Db := {|
  twitchAddon := [addon_stamped];
  twitchUserAddons := [];
  twitchUser := [];
  fault := no_fault
|}.

(** ** Properties *)

Section Properties.
Context `{Imports}.

(** *** The error monad *)

Lemma bind_Return {A B} (m : Exc A) (f : A -> Exc B) (b : B) :
  m ≫= f = Return b -> exists a, m = Return a /\ f a = Return b.
Proof. destruct m as [e|a]; simpl; [discriminate | eauto]. Qed.

Lemma or_throw_Return {A} (e : exn) (r : option A) (a : A) :
  or_throw e r = Return a <-> r = Some a.
Proof. destruct r; simpl; split; congruence. Qed.

Lemma run_Return {A} (db : Db) (q : query) (rows r : A) :
  run db q rows = Return r <-> fault db q = None /\ r = rows.
Proof.
  unfold run. destruct (fault db q); split.
  - discriminate.
  - intros [? _]; discriminate.
  - intros [= ->]; auto.
  - intros [_ ->]; reflexivity.
Qed.

Lemma respond_total (m : Exc Response) : exists r, respond m = Return r.
Proof. destruct m; simpl; eauto. Qed.

Lemma dbErrResponse_not_Json (e : exn) (body : value) : dbErrResponse e <> Json body.
Proof. destruct e; discriminate. Qed.

Lemma dbErrResponse_404 (e : exn) (msg : string) :
  dbErrResponse e = Json404 msg <-> e = NotFound msg.
Proof. destruct e; simpl; split; congruence. Qed.

Lemma respond_Json (m : Exc Response) (body : value) :
  respond m = Return (Json body) <-> m = Return (Json body).
Proof.
  destruct m as [e|r]; simpl; split; try congruence.
  intros [= E]. destruct (dbErrResponse_not_Json _ _ E).
Qed.

(** *** [forEach] *)

Lemma forEach_Return {A} (f : A -> Exc A) (l l' : list A) :
  forEach f l = Return l' <-> Forall2 (fun x y => f x = Return y) l l'.
Proof.
  revert l'. induction l as [|x l IH]; intros l'; simpl.
  - split; [intros [= <-]; constructor | inversion 1; reflexivity].
  - split.
    + intros E. apply bind_Return in E as (y & Ey & E).
      apply bind_Return in E as (ys & Eys & [= <-]).
      constructor; [done | by apply IH].
    + inversion 1 as [|? y ? ys Ey Eys]; subst.
      rewrite Ey; simpl. apply IH in Eys. rewrite Eys. reflexivity.
Qed.

(** *** [sort] *)

Lemma sort_insert_perm {A} (cmp : A -> A -> option Z) (x : A) (l : list A) :
  sort_insert cmp x l ≡ₚ x :: l.
Proof.
  induction l as [|y l IH]; simpl; [done |].
  destruct (goes_before cmp x y); [done |].
  rewrite IH. apply Permutation_swap.
Qed.

Lemma sort_perm {A} (cmp : A -> A -> option Z) (l : list A) : sort cmp l ≡ₚ l.
Proof.
  induction l as [|x l IH]; simpl; [done |].
  by rewrite sort_insert_perm, IH.
Qed.

Section Keyed.
Context {A : Type} (cmp : A -> A -> option Z) (keyed : A -> Z -> Prop).
Hypothesis cmp_keyed :
  forall a b ka kb, keyed a ka -> keyed b kb -> cmp a b = Some (ka - kb).

#[local] Abbreviation key_le := (key_le keyed).
#[local] Abbreviation has_key := (has_key keyed).

Lemma sort_insert_sorted (x : A) (l : list A) :
  has_key x -> Forall has_key l ->
  Sorted key_le l -> Sorted key_le (sort_insert cmp x l).
Proof.
  intros [kx Hx] Hl Hs. induction l as [|y l IH]; simpl.
  - repeat constructor.
  - inversion Hl as [|? ? [ky Hy] Hl']; subst.
    inversion Hs as [|? ? Hs' Hd]; subst.
    unfold goes_before. rewrite (cmp_keyed _ _ _ _ Hx Hy).
    destruct (Z.leb_spec (kx - ky) 0) as [Hle|Hgt].
    + constructor; [done |]. constructor. exists kx, ky. repeat split; [done..| lia].
    + constructor; [by apply IH |].
      destruct l as [|z l]; simpl.
      * constructor. exists ky, kx. repeat split; [done..| lia].
      * destruct (goes_before cmp x z).
        -- constructor. exists ky, kx. repeat split; [done..| lia].
        -- inversion Hd; subst. by constructor.
Qed.

Lemma sort_sorted (l : list A) : Forall has_key l -> Sorted key_le (sort cmp l).
Proof.
  induction 1 as [|x l Hx Hl IH]; simpl; [constructor |].
  apply sort_insert_sorted; [done | | done].
  by rewrite sort_perm.
Qed.

End Keyed.

Lemma Sorted_consecutive {A} (R : A -> A -> Prop) (l : list A) (i : nat) (a b : A) :
  Sorted R l -> l !! i = Some a -> l !! S i = Some b -> R a b.
Proof.
  intros Hs. revert i. induction Hs as [|x l Hs IH Hd]; intros i Ha Hb; [done |].
  destruct i as [|i]; simpl in *.
  - injection Ha as ->. destruct l; [done |]. injection Hb as ->.
    by inversion Hd.
  - eauto.
Qed.

(** *** Objects *)

Lemma get_insert_eq (o : object) (k : string) (v : value) : get (<[k := v]> o) k = v.
Proof. unfold get. by rewrite lookup_insert_eq. Qed.

Lemma get_insert_ne (o : object) (k k' : string) (v : value) :
  k <> k' -> get (<[k := v]> o) k' = get o k'.
Proof. intros. unfold get. by rewrite lookup_insert_ne. Qed.

(** *** [decorate] *)

Lemma is_true_VBool (b : bool) : is_true (VBool b) = b.
Proof. by destruct b. Qed.

(** [decorate] step by step: the timestamp is parsed, [installed] says
    whether the user's table has the addon, an installed addon gets
    [config] and, for a non-empty overlay id, [overlayUrl], and a schema
    that is present is parsed. *)
Lemma decorate_Return (userAddons entry e : object) :
  decorate userAddons entry = Return e ->
  exists t e2,
    ksuid_timestamp (get entry "addonId") = Some t /\
    let userInfo := get userAddons (to_string (get entry "addonId")) in
    let e1 := <["installed" := VBool (is_defined userInfo)]>
                (<["timestamp" := VNum t]> entry) in
    (if is_defined userInfo then
       exists configJSON config id,
         prop userInfo "configJSON" = Return configJSON /\
         JSON_parse configJSON = Some config /\
         prop userInfo "overlayId" = Return id /\
         e2 = (if is_str "" id then <["config" := config]> e1
               else <["overlayUrl" := VStr (overlay_url id)]> (<["config" := config]> e1))
     else e2 = e1) /\
    (if is_defined (get entry "configSchema") then
       exists schema,
         JSON_parse (get entry "configSchema") = Some schema /\
         e = <["configSchema" := schema]> e2
     else e = e2).
Proof.
  unfold decorate, parse_ksuid, parse_json. intros E.
  apply bind_Return in E as (t & Et & E). apply or_throw_Return in Et.
  cbv zeta in E. apply bind_Return in E as (e2 & E2 & E).
  rewrite get_insert_eq, is_true_VBool, get_insert_ne in E2 by done.
  exists t, e2. split; [done |]. cbv zeta.
  assert (get e2 "configSchema" = get entry "configSchema") as Hs.
  { destruct (is_defined _).
    - apply bind_Return in E2 as (cj & _ & E2).
      apply bind_Return in E2 as (c & _ & E2).
      apply bind_Return in E2 as (id & _ & [= <-]).
      destruct (is_str "" id); by rewrite !get_insert_ne.
    - injection E2 as <-. by rewrite !get_insert_ne. }
  rewrite Hs in E. split.
  - destruct (is_defined _); [| congruence].
    apply bind_Return in E2 as (cj & Ecj & E2).
    apply bind_Return in E2 as (c & Ec & E2). apply or_throw_Return in Ec.
    apply bind_Return in E2 as (id & Eid & [= <-]).
    by exists cj, c, id.
  - destruct (is_defined (get entry "configSchema")); [| congruence].
    apply bind_Return in E as (s & Es & [= <-]). apply or_throw_Return in Es.
    by exists s.
Qed.

Lemma decorate_timestamp (userAddons entry e : object) :
  decorate userAddons entry = Return e ->
  exists t, ksuid_timestamp (get entry "addonId") = Some t /\
            e !! "timestamp" = Some (VNum t).
Proof.
  intros E. apply decorate_Return in E as (t & e2 & Et & E2 & E).
  exists t. split; [done |]. cbv zeta in *.
  assert (e2 !! "timestamp" = Some (VNum t)) as He2.
  { destruct (is_defined _).
    - destruct E2 as (cj & c & id & _ & _ & _ & ->).
      destruct (is_str "" id); by simplify_map_eq.
    - subst e2. by simplify_map_eq. }
  destruct (is_defined (get entry "configSchema")).
  - destruct E as (s & _ & ->). by simplify_map_eq.
  - by subst e.
Qed.

(** Whatever [decorate] does not write is as the database row has it. *)
Lemma decorate_frame (userAddons entry e : object) (k : string) :
  decorate userAddons entry = Return e ->
  k ∉ decorated_fields -> e !! k = entry !! k.
Proof.
  intros E Hk. apply decorate_Return in E as (t & e2 & Et & E2 & E).
  cbv zeta in *. unfold decorated_fields in Hk.
  rewrite !not_elem_of_cons in Hk. destruct Hk as (? & ? & ? & ? & ? & _).
  assert (e2 !! k = entry !! k) as He2.
  { destruct (is_defined _).
    - destruct E2 as (cj & c & id & _ & _ & _ & ->).
      destruct (is_str "" id); by rewrite !lookup_insert_ne.
    - subst e2. by rewrite !lookup_insert_ne. }
  destruct (is_defined (get entry "configSchema")).
  - destruct E as (s & _ & ->). by rewrite lookup_insert_ne.
  - by subst e.
Qed.

Lemma decorate_addonId (userAddons entry e : object) :
  decorate userAddons entry = Return e -> get e "addonId" = get entry "addonId".
Proof.
  intros E. unfold get. erewrite decorate_frame; [done | done |].
  unfold decorated_fields. rewrite !not_elem_of_cons.
  repeat split; (discriminate || apply not_elem_of_nil).
Qed.

Lemma decorate_installed (userAddons entry e : object) :
  decorate userAddons entry = Return e ->
  e !! "installed" =
    Some (VBool (is_defined (get userAddons (to_string (get entry "addonId"))))).
Proof.
  intros E. apply decorate_Return in E as (t & e2 & Et & E2 & E).
  cbv zeta in *.
  set (b := is_defined (get userAddons _)) in *.
  assert (e2 !! "installed" = Some (VBool b)) as He2.
  { destruct b.
    - destruct E2 as (cj & c & id & _ & _ & _ & ->).
      destruct (is_str "" id); by simplify_map_eq.
    - subst e2. by simplify_map_eq. }
  destruct (is_defined (get entry "configSchema")).
  - destruct E as (s & _ & ->). by simplify_map_eq.
  - by subst e.
Qed.

(** An addon the user's table does not have gets neither [config] nor
    [overlayUrl]. *)
Lemma decorate_not_installed (userAddons entry e : object) :
  decorate userAddons entry = Return e ->
  get userAddons (to_string (get entry "addonId")) = VUndefined ->
  e !! "config" = entry !! "config" /\ e !! "overlayUrl" = entry !! "overlayUrl".
Proof.
  intros E Hu. apply decorate_Return in E as (t & e2 & Et & E2 & E).
  cbv zeta in *. rewrite Hu in E2. simpl in E2. subst e2.
  destruct (is_defined (get entry "configSchema")).
  - destruct E as (s & _ & ->). by simplify_map_eq.
  - subst e. by simplify_map_eq.
Qed.

(** An addon the user's table has gets [config], and [overlayUrl] unless
    the overlay id is the empty string. *)
Lemma decorate_is_installed (userAddons entry e userInfo : object) :
  decorate userAddons entry = Return e ->
  get userAddons (to_string (get entry "addonId")) = VObj userInfo ->
  exists config,
    JSON_parse (get userInfo "configJSON") = Some config /\
    e !! "config" = Some config /\
    e !! "overlayUrl" =
      (if is_str "" (get userInfo "overlayId") then entry !! "overlayUrl"
       else Some (VStr (overlay_url (get userInfo "overlayId")))).
Proof.
  intros E Hu. apply decorate_Return in E as (t & e2 & Et & E2 & E).
  cbv zeta in *. rewrite Hu in E2. simpl in E2.
  destruct E2 as (cj & c & id & [= <-] & Ec & [= <-] & ->).
  exists c. split; [done |].
  destruct (is_defined (get entry "configSchema")).
  - destruct E as (s & _ & ->).
    destruct (is_str "" _); by simplify_map_eq.
  - subst e. destruct (is_str "" _); by simplify_map_eq.
Qed.

(** *** [getAddonList] *)

(** The list handler answers with a body exactly when both queries and
    every [decorate] go through; the body is then the decorated rows,
    sorted. *)
Lemma getAddonList_Json (db : Db) (req : Request) (body : value) :
  getAddonList db req = Return (Json body) <->
  exists userAddons result,
    fault db AddonFindMany = None /\
    fetchUserAddons db req = Return userAddons /\
    Forall2 (fun row e => decorate userAddons row = Return e) (twitchAddon db) result /\
    body = VArr (VObj <$> sort by_timestamp result).
Proof.
  unfold getAddonList. rewrite respond_Json. unfold getAddonList_try. split.
  - intros E. apply bind_Return in E as (rows & Er & E).
    apply run_Return in Er as [Hf ->].
    apply bind_Return in E as (ua & Eu & E).
    apply bind_Return in E as (res & Ed & [= <-]).
    apply forEach_Return in Ed. by exists ua, res.
  - intros (ua & res & Hf & Eu & Ed & ->).
    unfold twitchAddon_findMany, run. rewrite Hf. simpl. rewrite Eu. simpl.
    apply forEach_Return in Ed. rewrite Ed. reflexivity.
Qed.

Lemma by_timestamp_keyed (a b : object) (ta tb : Z) :
  timestamped a ta -> timestamped b tb -> by_timestamp a b = Some (ta - tb).
Proof.
  intros [_ Ha] [_ Hb]. unfold by_timestamp, get. by rewrite Ha, Hb.
Qed.

Lemma decorate_timestamped (userAddons row e : object) :
  decorate userAddons row = Return e -> has_key timestamped e.
Proof.
  intros E. destruct (decorate_timestamp _ _ _ E) as (t & Ht & He).
  exists t. split; [| done]. by rewrite (decorate_addonId _ _ _ E).
Qed.

Lemma decorated_all_timestamped (userAddons : object) (rows result : list object) :
  Forall2 (fun row e => decorate userAddons row = Return e) rows result ->
  Forall (has_key timestamped) result.
Proof.
  induction 1; constructor; eauto using decorate_timestamped.
Qed.

(** C3. The array [GET /api/v1/addons] answers with is in ascending order
    of creation time: of any two consecutive entries, the timestamp
    [ksuid.parse] reads from the first one's [addonId] is at most the one
    it reads from the second's. *)
Theorem list_sorted_by_creation (db : Db) (req : Request) (body : value) :
  getAddonList db req = Return (Json body) ->
  exists entries,
    body = VArr (VObj <$> entries) /\
    forall (i : nat) (a b : object),
      entries !! i = Some a -> entries !! S i = Some b ->
      exists ta tb,
        ksuid_timestamp (get a "addonId") = Some ta /\
        ksuid_timestamp (get b "addonId") = Some tb /\
        ta <= tb.
Proof.
  intros E. apply getAddonList_Json in E as (ua & res & _ & _ & Hd & ->).
  eexists. split; [reflexivity |]. intros i a b Ha Hb.
  apply decorated_all_timestamped in Hd.
  pose proof (sort_sorted by_timestamp timestamped by_timestamp_keyed res Hd) as Hs.
  destruct (Sorted_consecutive _ _ _ _ _ Hs Ha Hb) as (ta & tb & [Hta _] & [Htb _] & Hle).
  by exists ta, tb.
Qed.

(** *** [fetchUserAddons] *)

Lemma is_str_true (s : string) (v : value) : is_str s v = true <-> v = VStr s.
Proof.
  destruct v; simpl; try (split; [discriminate | congruence]).
  rewrite String.eqb_eq. split; congruence.
Qed.

Lemma is_str_false (s t : string) : is_str s (VStr t) = false <-> t <> s.
Proof. simpl. rewrite String.eqb_neq. split; congruence. Qed.

Lemma col_eq_VStr (s : string) (v : value) : col_eq (VStr s) v = true <-> v = VStr s.
Proof. apply (is_str_true s v). Qed.

Lemma fetchUserAddons_nobody (db : Db) (req : Request) :
  getAuthorizedUser req = None -> fetchUserAddons db req = Return ∅.
Proof. unfold fetchUserAddons. by intros ->. Qed.

Lemma fetchUserAddons_user (db : Db) (req : Request) (u : string) (userAddons : object) :
  getAuthorizedUser req = Some u ->
  fetchUserAddons db req = Return userAddons ->
  userAddons = index_by_addonId (rows_of_user db u).
Proof.
  unfold fetchUserAddons. intros -> E.
  apply bind_Return in E as (data & Ed & [= <-]).
  by apply run_Return in Ed as [_ ->].
Qed.

Lemma index_by_addonId_snoc (data : list object) (row : object) :
  index_by_addonId (data ++ [row]) =
  <[to_string (get row "addonId") := VObj row]> (index_by_addonId data).
Proof. unfold index_by_addonId. by rewrite foldl_app. Qed.

(** The table holds rows of the list it was built from, each under the
    key its [addonId] prints as. *)
Lemma index_by_addonId_lookup (data : list object) (k : string) (v : value) :
  index_by_addonId data !! k = Some v ->
  exists row, v = VObj row /\ row ∈ data /\ to_string (get row "addonId") = k.
Proof.
  revert v. induction data as [|row data IH] using rev_ind; intros v.
  - unfold index_by_addonId. simpl. by rewrite lookup_empty.
  - rewrite index_by_addonId_snoc.
    destruct (decide (to_string (get row "addonId") = k)) as [<-|Hne].
    + rewrite lookup_insert_eq. intros [= <-]. exists row.
      repeat split. apply elem_of_app. right. by apply list_elem_of_singleton.
    + rewrite lookup_insert_ne by done. intros Hv.
      destruct (IH _ Hv) as (r & -> & Hin & Hk). exists r.
      repeat split; [| done]. apply elem_of_app. by left.
Qed.

Lemma index_by_addonId_member (data : list object) (row : object) :
  row ∈ data -> is_Some (index_by_addonId data !! to_string (get row "addonId")).
Proof.
  induction data as [|r data IH] using rev_ind; intros Hin.
  - by apply not_elem_of_nil in Hin.
  - rewrite index_by_addonId_snoc.
    destruct (decide (to_string (get r "addonId") = to_string (get row "addonId")))
      as [->|Hne].
    + rewrite lookup_insert_eq. eauto.
    + rewrite lookup_insert_ne by done. apply IH.
      apply elem_of_app in Hin as [Hin|Hin]; [done |].
      apply list_elem_of_singleton in Hin. congruence.
Qed.

Lemma elem_of_rows_of_user (db : Db) (u : string) (row : object) :
  row ∈ rows_of_user db u <-> row ∈ twitchUserAddons db /\ get row "userId" = VStr u.
Proof.
  unfold rows_of_user. rewrite !list_elem_of_In, filter_In, is_str_true. tauto.
Qed.

(** Under the constraints of the schema, the table built for the user [u]
    maps the addon [a] to the one row [u] has for it. *)
Lemma index_of_user_has (db : Db) (u a : string) (row : object) :
  addonId_is_text db -> unique_userId_addonId db -> user_has db u a row ->
  get (index_by_addonId (rows_of_user db u)) a = VObj row.
Proof.
  intros Htext Huniq (Hin & Hu & Ha).
  assert (row ∈ rows_of_user db u) as Hrow by by apply elem_of_rows_of_user.
  destruct (index_by_addonId_member _ _ Hrow) as [v Hv].
  rewrite Ha in Hv. simpl in Hv. unfold get. rewrite Hv. simpl.
  apply index_by_addonId_lookup in Hv as (r & -> & Hr & Hk).
  apply elem_of_rows_of_user in Hr as [Hr Hru].
  destruct (Htext _ Hr) as [a' Ha']. rewrite Ha' in Hk. simpl in Hk. subst a'.
  f_equal. apply Huniq; congruence.
Qed.

(** *** [getAddonById] *)

Lemma find_none_iff {A} (f : A -> bool) (l : list A) :
  List.find f l = None <-> forall x, x ∈ l -> f x = false.
Proof.
  split.
  - intros Hf x Hx. apply list_elem_of_In in Hx. by apply (find_none f l).
  - intros Hl. induction l as [|x l IH]; simpl; [done |].
    rewrite (Hl x) by apply list_elem_of_here.
    apply IH. intros y Hy. apply Hl. by apply list_elem_of_further.
Qed.

Lemma find_some_elem {A} (f : A -> bool) (l : list A) (x : A) :
  List.find f l = Some x -> x ∈ l /\ f x = true.
Proof. intros Hf. apply find_some in Hf as [Hin Hx]. by rewrite list_elem_of_In. Qed.

Lemma slug_or_id_true (k : string) (row : object) :
  slug_or_id k row = true <-> get row "slug" = VStr k \/ get row "addonId" = VStr k.
Proof. unfold slug_or_id. by rewrite orb_true_iff, !is_str_true. Qed.


(** The lookup handler answers with a body exactly when an addon row
    matches the key and the queries and the parses go through; the body
    is the first such row with its schema parsed, [installed] set, and
    for an installed addon [overlayUrl] and [config]. *)
Lemma getAddonById_Json (db : Db) (req : Request) (body : value) :
  getAddonById db req = Return (Json body) <->
  exists row schema userConfig,
    fault db AddonFindFirst = None /\
    List.find (slug_or_id (key (params req))) (twitchAddon db) = Some row /\
    JSON_parse (get row "configSchema") = Some schema /\
    match getAuthorizedUser req with
    | Some u => twitchUserAddons_findUnique db u (get row "addonId") = Return userConfig
    | None => userConfig = None
    end /\
    let e := <["configSchema" := schema]> row in
    match userConfig with
    | None => body = VObj (<["installed" := VBool false]> e)
    | Some uc =>
        exists config,
          JSON_parse (get uc "configJSON") = Some config /\
          body = VObj (<["config" := config]>
                         (<["overlayUrl" := if is_str "" (get uc "overlayId")
                                            then VStr ""
                                            else VStr (overlay_url (get uc "overlayId"))]>
                            (<["installed" := VBool true]> e)))
    end.
Proof.
  unfold getAddonById. rewrite respond_Json. unfold getAddonById_try, parse_json.
  split.
  - intros E. apply bind_Return in E as (found & Ef & E).
    apply run_Return in Ef as [Hf ->].
    destruct (List.find _ _) as [row|] eqn:Hrow; [| discriminate].
    apply bind_Return in E as (schema & Es & E). apply or_throw_Return in Es.
    cbv zeta in E. rewrite get_insert_ne in E by done.
    apply bind_Return in E as (uc & Eu & E).
    apply bind_Return in E as (e & Ee & [= <-]).
    exists row, schema, uc. repeat split; try done.
    + destruct (getAuthorizedUser req); [done | congruence].
    + cbv zeta. destruct uc as [uc|].
      * apply bind_Return in Ee as (config & Ec & [= <-]).
        apply or_throw_Return in Ec. by exists config.
      * by injection Ee as <-.
  - intros (row & schema & uc & Hf & Hrow & Hs & Hu & Hb).
    unfold twitchAddon_findFirst, run. rewrite Hf, Hrow. simpl.
    rewrite Hs. simpl. rewrite get_insert_ne by done.
    assert (match getAuthorizedUser req with
            | Some userId => twitchUserAddons_findUnique db userId (get row "addonId")
            | None => Return None
            end = Return uc) as ->.
    { destruct (getAuthorizedUser req); congruence. }
    simpl. cbv zeta in Hb. destruct uc as [uc|].
    + destruct Hb as (config & Hc & ->). rewrite Hc. reflexivity.
    + by subst body.
Qed.



(** *** [getOverlayInfo] *)

Lemma include_addon (db : Db) (row : object) :
  get (include_addon_owner db row) "addon" = related (twitchAddon db) "addonId" row.
Proof.
  unfold include_addon_owner. by rewrite get_insert_ne, get_insert_eq.
Qed.

Lemma include_configJSON (db : Db) (row : object) :
  get (include_addon_owner db row) "configJSON" = get row "configJSON".
Proof. unfold include_addon_owner. by rewrite !get_insert_ne. Qed.

Lemma related_cases (table : list object) (column : string) (row : object) :
  related table column row = VNull \/ exists r, related table column row = VObj r.
Proof. unfold related. destruct (List.find _ _); eauto. Qed.

(** The overlay handler answers with a body exactly when the query goes
    through with a single row whose addon is there and whose two JSON
    columns parse. *)
Lemma getOverlayInfo_Json (db : Db) (req : Request) (body : value) :
  getOverlayInfo db req = Return (Json body) <->
  exists row addon schema config,
    fault db UserAddonsFindMany = None /\
    rows_with_overlayId db (overlayId (params req)) = [row] /\
    related (twitchAddon db) "addonId" row = VObj addon /\
    JSON_parse (get addon "configSchema") = Some schema /\
    JSON_parse (get row "configJSON") = Some config /\
    body = VObj (<["configJSON" := config]>
                   (<["addon" := VObj (<["configSchema" := schema]> addon)]>
                      (include_addon_owner db row))).
Proof.
  unfold getOverlayInfo. rewrite respond_Json.
  unfold getOverlayInfo_try, twitchUserAddons_findMany_overlayId, parse_json.
  split.
  - intros E. apply bind_Return in E as (data & Ed & E).
    apply run_Return in Ed as [Hf ->].
    destruct (rows_with_overlayId db _) as [|row [|]]; simpl in E; try discriminate.
    rewrite include_addon in E.
    destruct (related_cases (twitchAddon db) "addonId" row) as [Hr|[addon Hr]];
      rewrite Hr in E; [discriminate |]. simpl in E.
    apply bind_Return in E as (schema & Es & E). apply or_throw_Return in Es.
    rewrite get_insert_ne, include_configJSON in E by done.
    apply bind_Return in E as (config & Ec & [= <-]). apply or_throw_Return in Ec.
    by exists row, addon, schema, config.
  - intros (row & addon & schema & config & Hf & Hrows & Hr & Hs & Hc & ->).
    unfold run. rewrite Hf, Hrows. simpl.
    rewrite include_addon, Hr. simpl. rewrite Hs. simpl.
    rewrite get_insert_ne, include_configJSON, Hc by done. reflexivity.
Qed.

(** It answers 404 exactly when the query goes through with no row or
    with several. *)
Lemma getOverlayInfo_404 (db : Db) (req : Request) (msg : string) :
  getOverlayInfo db req = Return (Json404 msg) <->
  fault db UserAddonsFindMany = None /\
  length (rows_with_overlayId db (overlayId (params req))) <> 1%nat /\
  msg = "no such overlay '" +:+ overlayId (params req) +:+ "'".
Proof.
  unfold getOverlayInfo, getOverlayInfo_try, twitchUserAddons_findMany_overlayId,
    run, parse_json.
  destruct (fault db UserAddonsFindMany); simpl.
  { split; [discriminate | intros [? _]; discriminate]. }
  destruct (rows_with_overlayId db _) as [|row [|]]; simpl.
  - split; [intros [= <-]; done | intros (_ & _ & ->); done].
  - split; [| intros (_ & ? & _); done].
    rewrite include_addon.
    destruct (related_cases (twitchAddon db) "addonId" row) as [Hr|[addon Hr]];
      rewrite Hr; simpl; [discriminate |].
    destruct (JSON_parse (get addon "configSchema")); simpl; [| discriminate].
    destruct (JSON_parse _); discriminate.
  - split; [intros [= <-]; done | intros (_ & _ & ->); done].
Qed.

(** C1. [GET /api/v1/overlay/:overlayId] answers with the 404 of a
    thrown [NotFound] whenever the number of UserAddon rows with that
    overlay id is not exactly one, be it none or several (the query
    itself going through), and it answers with a body only when exactly
    one row has that id. *)
Theorem overlay_404_unless_one_row (db : Db) (req : Request) :
  (fault db UserAddonsFindMany = None ->
   length (rows_with_overlayId db (overlayId (params req))) <> 1%nat ->
   getOverlayInfo_try db req =
     Throw (NotFound ("no such overlay '" +:+ overlayId (params req) +:+ "'")) /\
   getOverlayInfo db req =
     Return (Json404 ("no such overlay '" +:+ overlayId (params req) +:+ "'"))) /\
  (forall body, getOverlayInfo db req = Return (Json body) ->
     length (rows_with_overlayId db (overlayId (params req))) = 1%nat).
Proof.
  split.
  - intros Hf Hn. split; [| by apply getOverlayInfo_404].
    unfold getOverlayInfo_try, twitchUserAddons_findMany_overlayId, run.
    rewrite Hf. simpl.
    by destruct (rows_with_overlayId db _) as [|row [|]].
  - intros body E.
    apply getOverlayInfo_Json in E as (row & ? & ? & ? & _ & -> & _). reflexivity.
Qed.

(** C5. [GET /api/v1/overlay/:overlayId] needs no authentication: its
    answer does not depend on the request's token nor on what
    [getAuthorizedUser] makes of it.  A body it answers with is the one
    UserAddon row with that overlay id, together with the addon row under
    [addon] and the owner's row under [owner], where the addon's
    [configSchema] and the row's [configJSON] are the objects parsed from
    the stored JSON. *)
Theorem overlay_body_public (db : Db) (req : Request) :
  (forall (other : Imports) (req' : Request),
     @JSON_parse other = JSON_parse ->
     overlayId (params req') = overlayId (params req) ->
     @getOverlayInfo other db req' = getOverlayInfo db req) /\
  (forall body, getOverlayInfo db req = Return (Json body) ->
     exists row addon schema config e,
       rows_with_overlayId db (overlayId (params req)) = [row] /\
       related (twitchAddon db) "addonId" row = VObj addon /\
       JSON_parse (get addon "configSchema") = Some schema /\
       JSON_parse (get row "configJSON") = Some config /\
       body = VObj e /\
       e !! "addon" = Some (VObj (<["configSchema" := schema]> addon)) /\
       e !! "owner" = Some (related (twitchUser db) "userId" row) /\
       e !! "configJSON" = Some config /\
       forall f, f ∉ ["addon"; "owner"; "configJSON"] -> e !! f = row !! f).
Proof.
  split.
  - intros other req' Hj Hid.
    unfold getOverlayInfo, getOverlayInfo_try, parse_json. rewrite Hid.
    destruct other; simpl in *. by subst.
  - intros body E.
    apply getOverlayInfo_Json in E as (row & addon & schema & config & _ & Hrows & Hr & Hs & Hc & ->).
    exists row, addon, schema, config. eexists.
    split_and!; [done | done | done | done | reflexivity | ..];
      unfold include_addon_owner.
    + by rewrite lookup_insert_ne, lookup_insert_eq.
    + by rewrite !lookup_insert_ne, lookup_insert_eq by done.
    + by rewrite lookup_insert_eq.
    + intros f Hf. rewrite !not_elem_of_cons in Hf. destruct Hf as (? & ? & ? & _).
      by rewrite !lookup_insert_ne.
Qed.

(** *** The shared error responder *)

(** C7. Every handler of the API (overlay lookup, the answer to a
    missing overlay id, addon list, addon lookup) catches whatever its
    [try] block throws and hands it to [dbErrResponse], so that it always
    ends with an answer and no exception escapes; [dbErrResponse] turns
    [NotFound] into the 404 body and any other error into the generic
    failure. *)
Theorem handlers_catch_everything
    (block h : Db -> Request -> Exc Response) (db : Db) (req : Request) :
  (block, h) ∈ api ->
  (exists r, h db req = Return r) /\
  (forall e, block db req = Throw e -> h db req = Return (dbErrResponse e)) /\
  (forall r, block db req = Return r -> h db req = Return r) /\
  (forall msg, dbErrResponse (NotFound msg) = Json404 msg) /\
  (forall e, (forall msg, e <> NotFound msg) -> dbErrResponse e = JsonFailure).
Proof.
  intros Hin.
  assert (h db req = respond (block db req)) as ->.
  { unfold api in Hin. rewrite !elem_of_cons in Hin.
    destruct Hin as [[= -> ->]|[[= -> ->]|[[= -> ->]|[[= -> ->]|Hin]]]]; try done.
    by apply not_elem_of_nil in Hin. }
  repeat split.
  - apply respond_total.
  - by intros e ->.
  - by intros r ->.
  - intros [] He; try done. by destruct (He msg).
Qed.

(** C8. A request for [GET /api/v1/overlay/], with no overlay id after
    the slash, is routed to [reportInvalidAPI], which throws
    [NotFound('invalid API endpoint')] whatever the request and therefore
    always answers with the 404 body of the shared error responder. *)
Theorem overlay_without_id_is_404 (db : Db) (req : Request) (tok : option string) :
  reportInvalidAPI_try db req = Throw (NotFound "invalid API endpoint") /\
  reportInvalidAPI db req = Return (Json404 "invalid API endpoint") /\
  dispatch (addOverlayAPIs []) db "/api/v1/overlay/" tok =
    Some (Return (Json404 "invalid API endpoint")) /\
  dispatch (addOverlayAPIs []) db "/api/v1/overlay" tok =
    Some (Return (Json404 "invalid API endpoint")).
Proof. repeat split. Qed.

(** *** The fields the addon handlers add *)

Lemma Forall2_elem_of_r {A B} (P : A -> B -> Prop) (l : list A) (k : list B) (y : B) :
  Forall2 P l k -> y ∈ k -> exists x, x ∈ l /\ P x y.
Proof.
  induction 1 as [|x y' l k Hxy _ IH]; intros Hy.
  - by apply not_elem_of_nil in Hy.
  - apply elem_of_cons in Hy as [->|Hy].
    + exists x. split; [apply list_elem_of_here | done].
    + destruct (IH Hy) as (x' & Hx' & HP). exists x'.
      split; [by apply list_elem_of_further | done].
Qed.

(** Every entry of the list comes from an addon row, decorated against
    the table of the user's addons. *)
Lemma getAddonList_entries (db : Db) (req : Request) (body : value) :
  getAddonList db req = Return (Json body) ->
  exists userAddons entries,
    fetchUserAddons db req = Return userAddons /\
    body = VArr (VObj <$> entries) /\
    forall e, e ∈ entries ->
      exists row, row ∈ twitchAddon db /\ decorate userAddons row = Return e.
Proof.
  intros E. apply getAddonList_Json in E as (ua & res & _ & Hu & Hd & ->).
  exists ua, (sort by_timestamp res). repeat split; [done |].
  intros e He. rewrite sort_perm in He. by apply (Forall2_elem_of_r _ _ _ _ Hd).
Qed.

(** Every addon row is in the list, once. *)
Lemma getAddonList_length (db : Db) (req : Request) (entries : list value) :
  getAddonList db req = Return (Json (VArr entries)) ->
  length entries = length (twitchAddon db).
Proof.
  intros E. apply getAddonList_Json in E as (ua & res & _ & _ & Hd & [= ->]).
  rewrite length_fmap, sort_perm. symmetry. by apply (Forall2_length _ _ _ Hd).
Qed.

Lemma findUnique_user_has (db : Db) (u a : string) (row : object) (found : option object) :
  unique_userId_addonId db -> user_has db u a row ->
  twitchUserAddons_findUnique db u (VStr a) = Return found ->
  found = Some row.
Proof.
  intros Huniq (Hin & Hu & Ha) E. apply run_Return in E as [_ ->].
  destruct (List.find _ _) as [r|] eqn:Hr.
  - apply find_some_elem in Hr as [Hr Hm]. unfold userId_addonId in Hm.
    apply andb_true_iff in Hm as [Hmu Hma].
    apply is_str_true in Hmu. apply col_eq_VStr in Hma.
    f_equal. apply Huniq; congruence.
  - exfalso. apply (proj1 (find_none_iff _ _)) with (x := row) in Hr; [| done].
    unfold userId_addonId in Hr. rewrite Hu, Ha in Hr. simpl in Hr.
    by rewrite !String.eqb_refl in Hr.
Qed.


(** C9. The two addon endpoints disagree on an installed addon whose
    UserAddon row has the empty string as [overlayId]: the entry of
    [GET /api/v1/addons] has no [overlayUrl] at all, while the record of
    [GET /api/v1/addons/:key] has [overlayUrl] with the empty string as
    its value. *)
Theorem overlayUrl_of_empty_overlayId
    (db : Db) (req req' : Request) (u a : string) (row : object) :
  getAuthorizedUser req = Some u -> getAuthorizedUser req' = Some u ->
  addonId_is_text db -> unique_userId_addonId db ->
  user_has db u a row -> get row "overlayId" = VStr "" ->
  (forall r, r ∈ twitchAddon db -> r !! "overlayUrl" = None) ->
  (forall body, getAddonList db req = Return (Json body) ->
     exists entries,
       body = VArr (VObj <$> entries) /\
       forall e, e ∈ entries -> get e "addonId" = VStr a ->
                 e !! "overlayUrl" = None) /\
  (forall body, getAddonById db req' = Return (Json body) ->
     exists e, body = VObj e /\
               (get e "addonId" = VStr a -> e !! "overlayUrl" = Some (VStr ""))).
Proof.
  intros Hreq Hreq' Htext Huniq Hrow Hempty Hcol. split.
  - intros body E.
    apply getAddonList_entries in E as (ua & entries & Hu & -> & Hent).
    exists entries. split; [done |]. intros e He Ha.
    destruct (Hent e He) as (r & Hr & Hd).
    apply (fetchUserAddons_user _ _ _ _ Hreq) in Hu. subst ua.
    pose proof (decorate_addonId _ _ _ Hd) as Hid. rewrite Ha in Hid.
    pose proof (index_of_user_has db u a row Htext Huniq Hrow) as Hget.
    destruct (decorate_is_installed _ _ _ row Hd) as (config & _ & _ & Hurl).
    { by rewrite <- Hid. }
    rewrite Hempty in Hurl. simpl in Hurl. rewrite Hurl. by apply Hcol.
  - intros body E.
    apply getAddonById_Json in E as (r & schema & uc & _ & _ & _ & Hu & Hb).
    rewrite Hreq' in Hu. cbv zeta in Hb.
    assert (exists e, body = VObj e /\ get e "addonId" = get r "addonId")
      as (e & -> & Hid).
    { destruct uc as [uc|].
      - destruct Hb as (config & _ & ->). eexists. split; [reflexivity |].
        by rewrite !get_insert_ne.
      - subst body. eexists. split; [reflexivity |]. by rewrite !get_insert_ne. }
    exists e. split; [done |]. intros Ha. rewrite Ha in Hid. rewrite <- Hid in Hu.
    apply (findUnique_user_has _ _ _ _ _ Huniq Hrow) in Hu. subst uc.
    destruct Hb as (config & Hc & [= ->]).
    rewrite Hempty. simpl.
    by rewrite lookup_insert_ne, lookup_insert_eq by done.
Qed.

(** Without an authenticated user both handlers still write [installed],
    as [false]; [config] and [overlayUrl] are not written. *)
Lemma nobody_installed_false (db : Db) (req : Request) :
  getAuthorizedUser req = None ->
  (forall body, getAddonList db req = Return (Json body) ->
     exists entries,
       body = VArr (VObj <$> entries) /\
       forall e, e ∈ entries ->
         e !! "installed" = Some (VBool false) /\
         exists r, r ∈ twitchAddon db /\
                   e !! "config" = r !! "config" /\
                   e !! "overlayUrl" = r !! "overlayUrl") /\
  (forall body, getAddonById db req = Return (Json body) ->
     exists e r,
       body = VObj e /\ r ∈ twitchAddon db /\
       e !! "installed" = Some (VBool false) /\
       e !! "config" = r !! "config" /\
       e !! "overlayUrl" = r !! "overlayUrl").
Proof.
  intros Hreq. split.
  - intros body E.
    apply getAddonList_entries in E as (ua & entries & Hu & -> & Hent).
    exists entries. split; [done |]. intros e He.
    destruct (Hent e He) as (r & Hr & Hd).
    rewrite (fetchUserAddons_nobody _ _ Hreq) in Hu. injection Hu as <-.
    pose proof (decorate_installed _ _ _ Hd) as Hi.
    unfold get in Hi at 1. rewrite lookup_empty in Hi. simpl in Hi.
    split; [done |]. exists r. split; [done |].
    apply (decorate_not_installed _ _ _ Hd).
    unfold get at 1. by rewrite lookup_empty.
  - intros body E.
    apply getAddonById_Json in E as (r & schema & uc & _ & Hr & _ & Hu & Hb).
    rewrite Hreq in Hu. subst uc. cbv zeta in Hb. subst body.
    apply find_some_elem in Hr as [Hr _].
    eexists _, r. split; [reflexivity |]. split; [done |].
    split_and!.
    + by rewrite lookup_insert_eq.
    + by rewrite !lookup_insert_ne.
    + by rewrite !lookup_insert_ne.
Qed.

(** *** Further properties of [fetchUserAddons] *)

Lemma bind_Throw_inv {A B} (m : Exc A) (f : A -> Exc B) (e : exn) :
  m ≫= f = Throw e -> m = Throw e \/ exists a, m = Return a /\ f a = Throw e.
Proof. destruct m as [e'|a]; simpl; [intros [= ->]; auto | eauto]. Qed.

(** X1. A request without an authenticated user never reaches the
    UserAddon table: the list and the lookup answer the same on two
    databases that agree on the addon table and on the fate of its two
    queries, whatever their UserAddon tables hold and whether or not the
    queries on them are rejected. *)
Theorem anonymous_ignores_user_addons (db db' : Db) (req : Request) :
  getAuthorizedUser req = None ->
  twitchAddon db = twitchAddon db' ->
  fault db AddonFindMany = fault db' AddonFindMany ->
  fault db AddonFindFirst = fault db' AddonFindFirst ->
  getAddonList db req = getAddonList db' req /\
  getAddonById db req = getAddonById db' req.
Proof.
  intros Hreq Hrows Hmany Hfirst. split.
  - unfold getAddonList, getAddonList_try, twitchAddon_findMany, run.
    rewrite !(fetchUserAddons_nobody _ _ Hreq), Hrows, Hmany. reflexivity.
  - unfold getAddonById, getAddonById_try, twitchAddon_findFirst, run.
    rewrite Hreq, Hrows, Hfirst. reflexivity.
Qed.

(** X2. For an authenticated user none of whose rows has [__proto__] for
    [addonId] (assigning that key replaces the prototype of the table
    instead of storing a property), the table [fetchUserAddons] returns
    holds, as its own properties, rows of that user and nothing else,
    each under the key its [addonId] prints as, and every row of the
    user has its key in the table. *)
Theorem fetchUserAddons_only_own_rows
    (db : Db) (req : Request) (u : string) (userAddons : object) :
  getAuthorizedUser req = Some u ->
  (forall row, row ∈ twitchUserAddons db -> get row "userId" = VStr u ->
     to_string (get row "addonId") <> "__proto__") ->
  fetchUserAddons db req = Return userAddons ->
  (forall k v, userAddons !! k = Some v ->
     exists row, v = VObj row /\ row ∈ twitchUserAddons db /\
                 get row "userId" = VStr u /\ to_string (get row "addonId") = k) /\
  (forall row, row ∈ twitchUserAddons db -> get row "userId" = VStr u ->
     is_Some (userAddons !! to_string (get row "addonId"))).
Proof.
  intros Hreq _ E. apply (fetchUserAddons_user _ _ _ _ Hreq) in E. subst userAddons.
  split.
  - intros k v Hv. apply index_by_addonId_lookup in Hv as (row & -> & Hin & Hk).
    apply elem_of_rows_of_user in Hin as [Hin Hu]. by exists row.
  - intros row Hin Hu. apply index_by_addonId_member.
    by apply elem_of_rows_of_user.
Qed.

Lemma index_fold_other (data : list object) (acc : object) (k : string) :
  (forall r, r ∈ data -> to_string (get r "addonId") <> k) ->
  foldl (fun result addon => <[to_string (get addon "addonId") := VObj addon]> result)
        acc data !! k = acc !! k.
Proof.
  revert acc. induction data as [|r data IH]; intros acc Hne; simpl; [done |].
  rewrite IH.
  - apply lookup_insert_ne. apply Hne, list_elem_of_here.
  - intros r' Hr'. by apply Hne, list_elem_of_further.
Qed.

(** X3. When the user has several UserAddon rows for one addon, the
    table [fetchUserAddons] returns keeps the last of them: a row after
    which no row of the user has the same key is the one found under
    that key. *)
Theorem fetchUserAddons_last_row_wins
    (db : Db) (req : Request) (u : string) (before after : list object) (row : object) :
  getAuthorizedUser req = Some u ->
  fault db UserAddonsFindMany = None ->
  rows_of_user db u = before ++ row :: after ->
  (forall r, r ∈ after ->
     to_string (get r "addonId") <> to_string (get row "addonId")) ->
  exists userAddons,
    fetchUserAddons db req = Return userAddons /\
    userAddons !! to_string (get row "addonId") = Some (VObj row).
Proof.
  intros Hreq Hf Hrows Hlast.
  unfold fetchUserAddons, twitchUserAddons_findMany_userId, run.
  rewrite Hreq, Hf, Hrows. simpl. eexists. split; [reflexivity |].
  unfold index_by_addonId. rewrite foldl_app. simpl.
  rewrite index_fold_other by done. apply lookup_insert_eq.
Qed.

(** *** Further properties of [getAddonList] *)

Lemma Forall2_elem_of_l {A B} (P : A -> B -> Prop) (l : list A) (k : list B) (x : A) :
  Forall2 P l k -> x ∈ l -> exists y, y ∈ k /\ P x y.
Proof.
  induction 1 as [|x' y l k Hxy _ IH]; intros Hx.
  - by apply not_elem_of_nil in Hx.
  - apply elem_of_cons in Hx as [->|Hx].
    + exists y. split; [apply list_elem_of_here | done].
    + destruct (IH Hx) as (y' & Hy' & HP). exists y'.
      split; [by apply list_elem_of_further | done].
Qed.

(** X4. The list has one entry for every addon row and no other: its
    entries are, up to their order, the rows of the addon table, each
    with every property that is not one of [timestamp], [installed],
    [config], [overlayUrl] and [configSchema] as the row has it. *)
Theorem list_has_every_addon (db : Db) (req : Request) (body : value) :
  getAddonList db req = Return (Json body) ->
  exists entries decorated,
    body = VArr (VObj <$> entries) /\
    entries ≡ₚ decorated /\
    Forall2 (fun row e => forall k, k ∉ decorated_fields -> e !! k = row !! k)
            (twitchAddon db) decorated.
Proof.
  intros E. apply getAddonList_Json in E as (ua & res & _ & _ & Hd & ->).
  exists (sort by_timestamp res), res. split; [done |]. split; [apply sort_perm |].
  eapply Forall2_impl; [exact Hd |]. intros row e He k Hk.
  by apply (decorate_frame _ _ _ _ He).
Qed.

Lemma decorate_Throw (userAddons entry : object) (e : exn) :
  decorate userAddons entry = Throw e -> forall msg, e <> NotFound msg.
Proof.
  unfold decorate, parse_ksuid, parse_json. intros E msg ->.
  apply bind_Throw_inv in E as [E|(t & _ & E)].
  { destruct (ksuid_timestamp _); discriminate. }
  cbv zeta in E. apply bind_Throw_inv in E as [E|(e2 & _ & E)].
  - destruct (is_true _); [| discriminate].
    apply bind_Throw_inv in E as [E|(cj & _ & E)].
    { destruct (get userAddons _); discriminate. }
    apply bind_Throw_inv in E as [E|(c & _ & E)].
    { destruct (JSON_parse _); discriminate. }
    apply bind_Throw_inv in E as [E|(id & _ & E)]; [| discriminate].
    destruct (get userAddons _); discriminate.
  - destruct (is_defined _); [| discriminate].
    apply bind_Throw_inv in E as [E|(s & _ & E)]; [| discriminate].
    destruct (JSON_parse _); discriminate.
Qed.

Lemma forEach_Throw {A} (f : A -> Exc A) (l : list A) (e : exn) :
  forEach f l = Throw e -> exists x, x ∈ l /\ f x = Throw e.
Proof.
  induction l as [|x l IH]; simpl; [discriminate |]. intros E.
  apply bind_Throw_inv in E as [E|(y & _ & E)].
  - exists x. split; [apply list_elem_of_here | done].
  - apply bind_Throw_inv in E as [E|(ys & _ & E)]; [| discriminate].
    destruct (IH E) as (x' & Hx' & Ex'). exists x'.
    split; [by apply list_elem_of_further | done].
Qed.

Lemma getAddonList_try_Throw (db : Db) (req : Request) (e : exn) :
  getAddonList_try db req = Throw e -> forall msg, e <> NotFound msg.
Proof.
  unfold getAddonList_try. intros E msg ->.
  apply bind_Throw_inv in E as [E|(rows & _ & E)].
  { unfold twitchAddon_findMany, run in E. destruct (fault db _); discriminate. }
  apply bind_Throw_inv in E as [E|(ua & _ & E)].
  { unfold fetchUserAddons, twitchUserAddons_findMany_userId, run in E.
    destruct (getAuthorizedUser req); [| discriminate].
    destruct (fault db _); discriminate. }
  apply bind_Throw_inv in E as [E|(res & _ & E)]; [| discriminate].
  apply forEach_Throw in E as (row & _ & E).
  by apply (decorate_Throw _ _ _ E msg).
Qed.

Lemma getAddonList_answers (db : Db) (req : Request) :
  (forall msg, getAddonList db req <> Return (Json404 msg)) /\
  ((exists body, getAddonList db req = Return (Json body)) \/
   getAddonList db req = Return JsonFailure).
Proof.
  assert (forall msg, getAddonList db req <> Return (Json404 msg)) as Hno.
  { intros msg E. unfold getAddonList, getAddonList_try in E.
    destruct (getAddonList_try db req) as [e|r] eqn:Et;
      unfold getAddonList_try in Et; rewrite Et in E; simpl in E.
    - injection E as E. apply dbErrResponse_404 in E.
      by apply (getAddonList_try_Throw _ _ _ Et msg).
    - injection E as ->.
      apply bind_Return in Et as (rows & _ & Et).
      apply bind_Return in Et as (ua & _ & Et).
      by apply bind_Return in Et as (res & _ & Et). }
  split; [done |].
  destruct (respond_total (getAddonList_try db req)) as [[body|msg|] E].
  - left. by exists body.
  - by destruct (Hno msg).
  - by right.
Qed.

(** X5. [GET /api/v1/addons] never answers 404: it ends with the array
    or with the generic failure. *)
Theorem list_never_404 (db : Db) (req : Request) :
  (forall msg, getAddonList db req <> Return (Json404 msg)) /\
  ((exists body, getAddonList db req = Return (Json body)) \/
   getAddonList db req = Return JsonFailure).
Proof. apply getAddonList_answers. Qed.

(** X6. One bad row spoils the whole list: when the [addonId] of some
    addon row is not a ksuid, or its [configSchema] is there and is not
    JSON, [GET /api/v1/addons] answers with the generic failure, for
    every request. *)
Theorem list_fails_on_bad_row (db : Db) (req : Request) (row : object) :
  row ∈ twitchAddon db ->
  ksuid_timestamp (get row "addonId") = None \/
  (is_defined (get row "configSchema") = true /\
   JSON_parse (get row "configSchema") = None) ->
  getAddonList db req = Return JsonFailure.
Proof.
  intros Hin Hbad.
  destruct (getAddonList_answers db req) as [_ [[body E]|E]]; [| done].
  exfalso. apply getAddonList_Json in E as (ua & res & _ & _ & Hd & _).
  destruct (Forall2_elem_of_l _ _ _ _ Hd Hin) as (e & _ & He).
  apply decorate_Return in He as (t & e2 & Ht & _ & Hs). cbv zeta in Hs.
  destruct Hbad as [Hk|[Hdef Hj]]; [congruence |].
  rewrite Hdef in Hs. destruct Hs as (s & Hs & _). congruence.
Qed.

Lemma decorate_configSchema (userAddons entry e : object) :
  decorate userAddons entry = Return e ->
  if is_defined (get entry "configSchema") then
    exists schema, JSON_parse (get entry "configSchema") = Some schema /\
                   e !! "configSchema" = Some schema
  else e !! "configSchema" = entry !! "configSchema".
Proof.
  intros E. apply decorate_Return in E as (t & e2 & _ & E2 & E). cbv zeta in *.
  destruct (is_defined (get entry "configSchema")).
  - destruct E as (s & Hs & ->). exists s. by rewrite lookup_insert_eq.
  - subst e. destruct (is_defined _).
    + destruct E2 as (cj & c & id & _ & _ & _ & ->).
      destruct (is_str "" id); by rewrite !lookup_insert_ne.
    + subst e2. by rewrite !lookup_insert_ne.
Qed.

(** X7. In the list the [configSchema] of an entry is the object parsed
    from the row's column when the row has one, and is left as the row
    has it (absent) when the column is [undefined]. *)
Theorem list_configSchema (db : Db) (req : Request) (body : value) :
  getAddonList db req = Return (Json body) ->
  exists entries,
    body = VArr (VObj <$> entries) /\
    forall e, e ∈ entries ->
      exists row, row ∈ twitchAddon db /\ get e "addonId" = get row "addonId" /\
        if is_defined (get row "configSchema") then
          exists schema, JSON_parse (get row "configSchema") = Some schema /\
                         e !! "configSchema" = Some schema
        else e !! "configSchema" = row !! "configSchema".
Proof.
  intros E. apply getAddonList_entries in E as (ua & entries & _ & -> & Hent).
  exists entries. split; [done |]. intros e He.
  destruct (Hent e He) as (row & Hrow & Hd). exists row.
  split; [done |]. split; [by apply (decorate_addonId _ _ _ Hd) |].
  by apply (decorate_configSchema _ _ _ Hd).
Qed.

Lemma sort_insert_Forall2 {A} (cmp : A -> A -> option Z) (R : A -> A -> Prop)
    (x y : A) (l l' : list A) :
  (forall a a' b b', R a b -> R a' b' -> cmp a a' = cmp b b') ->
  R x y -> Forall2 R l l' ->
  Forall2 R (sort_insert cmp x l) (sort_insert cmp y l').
Proof.
  intros Hcmp Hxy Hl. induction Hl as [|a b l l' Hab Hl IH]; simpl.
  - by repeat constructor.
  - unfold goes_before. rewrite (Hcmp x a y b Hxy Hab).
    destruct (match cmp y b with Some d => d <=? 0 | None => true end);
      by repeat constructor.
Qed.

Lemma sort_Forall2 {A} (cmp : A -> A -> option Z) (R : A -> A -> Prop) (l l' : list A) :
  (forall a a' b b', R a b -> R a' b' -> cmp a a' = cmp b b') ->
  Forall2 R l l' -> Forall2 R (sort cmp l) (sort cmp l').
Proof.
  intros Hcmp Hl. induction Hl as [|a b l l' Hab Hl IH]; simpl; [constructor |].
  by apply sort_insert_Forall2.
Qed.

Lemma not_user_field (k : string) :
  k ∉ user_fields <-> k <> "installed" /\ k <> "config" /\ k <> "overlayUrl".
Proof.
  unfold user_fields. rewrite !not_elem_of_cons. split.
  - intros (? & ? & ? & _). done.
  - intros (? & ? & ?). repeat split; try done. apply not_elem_of_nil.
Qed.

Lemma same_addon_by_timestamp (a a' b b' : object) :
  same_addon a b -> same_addon a' b' -> by_timestamp a a' = by_timestamp b b'.
Proof.
  intros Hab Hab'. unfold by_timestamp, get.
  rewrite (Hab "timestamp"), (Hab' "timestamp"); [done | |];
    by apply not_user_field.
Qed.

Lemma decorate_same_addon (userAddons1 userAddons2 row e1 e2 : object) :
  decorate userAddons1 row = Return e1 ->
  decorate userAddons2 row = Return e2 ->
  same_addon e1 e2.
Proof.
  intros E1 E2 k Hk. apply not_user_field in Hk as (Hi & Hc & Ho).
  apply decorate_Return in E1 as (t1 & m1 & Ht1 & Hm1 & He1).
  apply decorate_Return in E2 as (t2 & m2 & Ht2 & Hm2 & He2).
  assert (t2 = t1) as -> by congruence. cbv zeta in *.
  assert (m1 !! k = (<["timestamp" := VNum t1]> row) !! k) as H1.
  { destruct (is_defined (get userAddons1 _)).
    - destruct Hm1 as (cj & c & id & _ & _ & _ & ->).
      destruct (is_str "" id); by rewrite !lookup_insert_ne by done.
    - subst m1. by rewrite lookup_insert_ne by done. }
  assert (m2 !! k = (<["timestamp" := VNum t1]> row) !! k) as H2.
  { destruct (is_defined (get userAddons2 _)).
    - destruct Hm2 as (cj & c & id & _ & _ & _ & ->).
      destruct (is_str "" id); by rewrite !lookup_insert_ne by done.
    - subst m2. by rewrite lookup_insert_ne by done. }
  destruct (is_defined (get row "configSchema")).
  - destruct He1 as (s1 & Hs1 & ->), He2 as (s2 & Hs2 & ->).
    assert (s2 = s1) as -> by congruence.
    destruct (decide (k = "configSchema")) as [->|Hne].
    + by rewrite !lookup_insert_eq.
    + rewrite !lookup_insert_ne by done. congruence.
  - subst e1 e2. congruence.
Qed.

(** X8. Who asks changes nothing but [installed], [config] and
    [overlayUrl]: the lists two requests get from the same database have
    the same entries in the same order, equal in every other property,
    [timestamp] and [configSchema] included. *)
Theorem list_same_for_everyone (db : Db) (req1 req2 : Request) (body1 body2 : value) :
  getAddonList db req1 = Return (Json body1) ->
  getAddonList db req2 = Return (Json body2) ->
  exists entries1 entries2,
    body1 = VArr (VObj <$> entries1) /\
    body2 = VArr (VObj <$> entries2) /\
    Forall2 same_addon entries1 entries2.
Proof.
  intros E1 E2.
  apply getAddonList_Json in E1 as (ua1 & res1 & _ & _ & Hd1 & ->).
  apply getAddonList_Json in E2 as (ua2 & res2 & _ & _ & Hd2 & ->).
  exists (sort by_timestamp res1), (sort by_timestamp res2).
  split; [done |]. split; [done |].
  apply sort_Forall2.
  { intros a a' b b'. apply same_addon_by_timestamp. }
  revert res2 Hd2. induction Hd1 as [|row e1 rows res1 He1 _ IH]; intros res2 Hd2.
  - inversion Hd2. constructor.
  - inversion Hd2 as [|? e2 ? res2' He2 Hd2']; subst. constructor.
    + by apply (decorate_same_addon _ _ _ _ _ He1 He2).
    + by apply IH.
Qed.

(** *** Further properties of [getAddonById] *)

(** X9. The lookup parses [configSchema] without looking whether it is
    there: when the schema of the addon found does not parse, as for a
    row without one where [JSON.parse(undefined)] throws, the answer is
    the generic failure and not a 404. *)
Theorem lookup_fails_without_schema (db : Db) (req : Request) (row : object) :
  fault db AddonFindFirst = None ->
  List.find (slug_or_id (key (params req))) (twitchAddon db) = Some row ->
  JSON_parse (get row "configSchema") = None ->
  getAddonById db req = Return JsonFailure.
Proof.
  intros Hf Hrow Hs.
  unfold getAddonById, getAddonById_try, twitchAddon_findFirst, run, parse_json.
  rewrite Hf, Hrow. simpl. rewrite Hs. reflexivity.
Qed.

(** X10. For an authenticated user who has no UserAddon row for an
    addon, both handlers set [installed = false] on its record and write
    neither [config] nor [overlayUrl]. *)
Theorem not_installed_addon_fields (db : Db) (req req' : Request) (u a : string) :
  getAuthorizedUser req = Some u -> getAuthorizedUser req' = Some u ->
  (forall row, row ∈ twitchUserAddons db -> get row "userId" = VStr u ->
     to_string (get row "addonId") <> a) ->
  (forall body, getAddonList db req = Return (Json body) ->
     exists entries,
       body = VArr (VObj <$> entries) /\
       forall e, e ∈ entries -> get e "addonId" = VStr a ->
         e !! "installed" = Some (VBool false) /\
         exists r, r ∈ twitchAddon db /\
                   e !! "config" = r !! "config" /\
                   e !! "overlayUrl" = r !! "overlayUrl") /\
  (forall body, getAddonById db req' = Return (Json body) ->
     exists e r,
       body = VObj e /\ r ∈ twitchAddon db /\
       (get e "addonId" = VStr a ->
        e !! "installed" = Some (VBool false) /\
        e !! "config" = r !! "config" /\
        e !! "overlayUrl" = r !! "overlayUrl")).
Proof.
  intros Hreq Hreq' Hnone. split.
  - intros body E.
    apply getAddonList_entries in E as (ua & entries & Hu & -> & Hent).
    exists entries. split; [done |]. intros e He Ha.
    destruct (Hent e He) as (r & Hr & Hd).
    apply (fetchUserAddons_user _ _ _ _ Hreq) in Hu. subst ua.
    pose proof (decorate_addonId _ _ _ Hd) as Hid. rewrite Ha in Hid.
    assert (get (index_by_addonId (rows_of_user db u))
                (to_string (get r "addonId")) = VUndefined) as Hget.
    { rewrite <- Hid. simpl. unfold get.
      destruct (index_by_addonId _ !! a) as [v|] eqn:Hv; [| done].
      apply index_by_addonId_lookup in Hv as (row & _ & Hin & Hk).
      apply elem_of_rows_of_user in Hin as [Hin Hru].
      by destruct (Hnone row Hin Hru). }
    pose proof (decorate_installed _ _ _ Hd) as Hi. rewrite Hget in Hi.
    split; [done |]. exists r. split; [done |].
    by apply (decorate_not_installed _ _ _ Hd).
  - intros body E.
    apply getAddonById_Json in E as (r & schema & uc & _ & Hr & _ & Hu & Hb).
    apply find_some_elem in Hr as [Hr _].
    rewrite Hreq' in Hu. cbv zeta in Hb.
    destruct uc as [uc|].
    + destruct Hb as (config & _ & ->). eexists _, r.
      split; [reflexivity |]. split; [done |]. intros Ha. exfalso.
      rewrite !get_insert_ne in Ha by done.
      apply run_Return in Hu as [_ Hu]. symmetry in Hu.
      apply find_some_elem in Hu as [Hin Hm]. unfold userId_addonId in Hm.
      apply andb_true_iff in Hm as [Hmu Hma]. apply is_str_true in Hmu.
      rewrite Ha in Hma. apply col_eq_VStr in Hma.
      apply (Hnone uc Hin Hmu). by rewrite Hma.
    + subst body. eexists _, r. split; [reflexivity |]. split; [done |].
      intros _. split_and!.
      * by rewrite lookup_insert_eq.
      * by rewrite !lookup_insert_ne.
      * by rewrite !lookup_insert_ne.
Qed.

(** X11. Looking an addon up by its slug and by its id gives the same
    answer: for a row that is the only one to have either key as slug or
    as id, the two requests of one user are answered alike. *)
Theorem lookup_by_slug_or_by_id (db : Db) (req req' : Request) (row : object) :
  getAuthorizedUser req = getAuthorizedUser req' ->
  row ∈ twitchAddon db ->
  get row "slug" = VStr (key (params req)) ->
  get row "addonId" = VStr (key (params req')) ->
  (forall r, r ∈ twitchAddon db ->
     slug_or_id (key (params req)) r = true \/ slug_or_id (key (params req')) r = true ->
     r = row) ->
  getAddonById db req = getAddonById db req'.
Proof.
  intros Hu Hin Hslug Hid Honly.
  assert (forall k, slug_or_id k row = true ->
            (forall r, r ∈ twitchAddon db -> slug_or_id k r = true -> r = row) ->
            List.find (slug_or_id k) (twitchAddon db) = Some row) as Hfind.
  { intros k Hk Hk'. destruct (List.find _ _) as [r|] eqn:Hr.
    - apply find_some_elem in Hr as [Hr Hm]. f_equal. by apply Hk'.
    - apply (proj1 (find_none_iff _ _)) with (x := row) in Hr; [congruence | done]. }
  unfold getAddonById, getAddonById_try, twitchAddon_findFirst, run.
  rewrite Hu. destruct (fault db AddonFindFirst); [reflexivity |]. simpl.
  rewrite !Hfind; [reflexivity | | | |].
  - apply slug_or_id_true. by right.
  - intros r Hr Hm. apply Honly; auto.
  - apply slug_or_id_true. by left.
  - intros r Hr Hm. apply Honly; auto.
Qed.

(** *** Routing *)

Lemma string_app_cons (c : ascii) (s t : string) :
  String c s +:+ t = String c (s +:+ t).
Proof. reflexivity. Qed.

Lemma string_app_nil_r (s : string) : s +:+ "" = s.
Proof.
  induction s as [|c s IH]; [done |]. by rewrite string_app_cons, IH.
Qed.

Lemma string_app_snoc (s t : string) (c : ascii) :
  (s +:+ String c "") +:+ t = s +:+ String c t.
Proof.
  induction s as [|c' s IH]; [done |]. by rewrite !string_app_cons, IH.
Qed.

Lemma segments_from_segment (cur s : string) :
  no_slash s = true -> cur +:+ s <> "" -> segments_from cur s = [cur +:+ s].
Proof.
  revert cur. induction s as [|c s IH]; intros cur Hs Hne.
  - rewrite string_app_nil_r in *. simpl.
    destruct (String.eqb_spec cur ""); [done | reflexivity].
  - simpl in Hs. apply andb_true_iff in Hs as [Hc Hs].
    apply negb_true_iff in Hc. simpl. rewrite Hc.
    rewrite IH; [by rewrite string_app_snoc | done |].
    rewrite string_app_snoc. by destruct cur.
Qed.

Lemma overlay_path_segments (id : string) :
  no_slash id = true -> id <> "" ->
  segments ("/api/v1/overlay/" +:+ id) = ["api"; "v1"; "overlay"; id].
Proof.
  intros Hs Hne.
  change (segments ("/api/v1/overlay/" +:+ id))
    with ("api" :: "v1" :: "overlay" :: segments_from "" id).
  by rewrite segments_from_segment.
Qed.

Lemma addons_path_segments (k : string) :
  no_slash k = true -> k <> "" ->
  segments ("/api/v1/addons/" +:+ k) = ["api"; "v1"; "addons"; k].
Proof.
  intros Hs Hne.
  change (segments ("/api/v1/addons/" +:+ k))
    with ("api" :: "v1" :: "addons" :: segments_from "" k).
  by rewrite segments_from_segment.
Qed.

Lemma plain_segment_no_slash (s : string) : plain_segment s = true -> no_slash s = true.
Proof.
  induction s as [|c s IH]; simpl; [done |].
  rewrite !andb_true_iff. intros ((((Hc & _) & _) & _) & Hs). auto.
Qed.

(** X14. The two overlay routes do not shadow each other: a path
    [/api/v1/overlay/<id>] whose id is not empty and is one that Express
    hands on as it stands (no slash, no percent escape, no query string
    or fragment) is answered by [getOverlayInfo] with that id as
    [req.params.overlayId], although the route without an id was added
    first. *)
Theorem overlay_route_binds_id (db : Db) (id : string) (tok : option string) :
  plain_segment id = true -> id <> "" ->
  dispatch (addOverlayAPIs []) db ("/api/v1/overlay/" +:+ id) tok
  = Some (getOverlayInfo db (routed "" id tok)).
Proof.
  intros Hs Hne. apply plain_segment_no_slash in Hs.
  unfold dispatch, addOverlayAPIs, app_get. simpl app.
  cbv [pattern handler]. rewrite overlay_path_segments by done. reflexivity.
Qed.

(** X15. The addon routes: [/api/v1/addons], with or without a trailing
    slash, is answered by [getAddonList]; [/api/v1/addons/<key>] whose
    key is not empty and is one that Express hands on as it stands (no
    slash, no percent escape, no query string or fragment) is answered
    by [getAddonById] with that key as [req.params.key]. *)
Theorem addon_routes (db : Db) (k : string) (tok : option string) :
  dispatch (addAddonAPIs []) db "/api/v1/addons" tok
  = Some (getAddonList db (routed "" "" tok)) /\
  dispatch (addAddonAPIs []) db "/api/v1/addons/" tok
  = Some (getAddonList db (routed "" "" tok)) /\
  (plain_segment k = true -> k <> "" ->
   dispatch (addAddonAPIs []) db ("/api/v1/addons/" +:+ k) tok
   = Some (getAddonById db (routed k "" tok))).
Proof.
  split_and!; [reflexivity | reflexivity |].
  intros Hs Hne. apply plain_segment_no_slash in Hs.
  unfold dispatch, addAddonAPIs, app_get. simpl app.
  cbv [pattern handler]. rewrite addons_path_segments by done. reflexivity.
Qed.

(** *** Further properties of [getOverlayInfo] *)

Lemma elem_of_rows_with_overlayId (db : Db) (id : string) (row : object) :
  row ∈ rows_with_overlayId db id <->
  row ∈ twitchUserAddons db /\ get row "overlayId" = VStr id.
Proof.
  unfold rows_with_overlayId. rewrite !list_elem_of_In, filter_In, is_str_true. tauto.
Qed.

(** X12. The overlay URL closes the loop: when the addon lookup hands a
    user the [overlayUrl] of an installed addon, and that overlay id is
    the id of this one UserAddon row (with [addonId] the key of the addon
    table and the overlay query going through), the overlay endpoint
    asked for the id that ends the URL does answer with a body, which is
    that user's row for that addon, and the [configJSON] it returns is
    the [config] the lookup returned. *)
Theorem overlay_of_overlayUrl
    (db : Db) (req req' : Request) (u a id : string) (row e : object) :
  getAuthorizedUser req = Some u ->
  unique_userId_addonId db -> unique_addonId db ->
  user_has db u a row ->
  get row "overlayId" = VStr id -> id <> "" ->
  getAddonById db req = Return (Json (VObj e)) -> get e "addonId" = VStr a ->
  overlayId (params req') = id ->
  fault db UserAddonsFindMany = None ->
  rows_with_overlayId db id = [row] ->
  e !! "overlayUrl" = Some (VStr (overlayBase +:+ "/" +:+ id)) /\
  exists o,
    getOverlayInfo db req' = Return (Json (VObj o)) /\
    get o "userId" = VStr u /\
    get o "addonId" = VStr a /\
    o !! "configJSON" = e !! "config".
Proof.
  intros Hreq Huniq Hkey Hrow Hoid Hne Ek Ha Hid Hf Hrows.
  apply getAddonById_Json in Ek as (r & schema & uc & _ & Hfind & Hs & Hu & Hb).
  rewrite Hreq in Hu. cbv zeta in Hb.
  assert (get e "addonId" = get r "addonId") as Hr.
  { destruct uc as [uc|].
    - destruct Hb as (config & _ & [= ->]). by rewrite !get_insert_ne.
    - injection Hb as ->. by rewrite !get_insert_ne. }
  rewrite Ha in Hr. rewrite <- Hr in Hu.
  apply (findUnique_user_has _ _ _ _ _ Huniq Hrow) in Hu. subst uc.
  destruct Hb as (config & Hc & [= ->]).
  destruct Hrow as (_ & Hru & Hra).
  apply find_some_elem in Hfind as [Hin _].
  assert (related (twitchAddon db) "addonId" row = VObj r) as Hrel.
  { unfold related. rewrite Hra.
    destruct (List.find _ _) as [r'|] eqn:Hr'.
    - apply find_some_elem in Hr' as [Hin' Hm]. apply col_eq_VStr in Hm.
      f_equal. apply Hkey; congruence.
    - exfalso. apply (proj1 (find_none_iff _ _)) with (x := r) in Hr'; [| done].
      rewrite <- Hr in Hr'. simpl in Hr'. by rewrite String.eqb_refl in Hr'. }
  rewrite Hoid, (proj2 (is_str_false "" id) Hne).
  split; [by rewrite lookup_insert_ne, lookup_insert_eq by done |].
  eexists. split.
  - apply getOverlayInfo_Json. exists row, r, schema, config.
    rewrite Hid. split_and!; done.
  - unfold include_addon_owner. split_and!.
    + by rewrite !get_insert_ne.
    + by rewrite !get_insert_ne.
    + by rewrite !lookup_insert_eq.
Qed.

(** X13. The overlay endpoint answers with the generic failure exactly
    when the query is rejected, or when it finds a single row whose
    addon is missing or one of whose two JSON columns does not parse;
    unparsable settings never come out as a 404. *)
Theorem overlay_failure (db : Db) (req : Request) :
  getOverlayInfo db req = Return JsonFailure <->
  (exists msg, fault db UserAddonsFindMany = Some msg) \/
  (exists row,
     fault db UserAddonsFindMany = None /\
     rows_with_overlayId db (overlayId (params req)) = [row] /\
     match related (twitchAddon db) "addonId" row with
     | VObj addon => JSON_parse (get addon "configSchema") = None \/
                     JSON_parse (get row "configJSON") = None
     | _ => True
     end).
Proof.
  unfold getOverlayInfo, getOverlayInfo_try, twitchUserAddons_findMany_overlayId,
    run, parse_json.
  destruct (fault db UserAddonsFindMany) as [msg|]; simpl.
  { split; [intros _; left; by exists msg | done]. }
  destruct (rows_with_overlayId db _) as [|row [|row' rows]]; simpl.
  - split; [discriminate | intros [[? ?]|(? & _ & ? & _)]; discriminate].
  - rewrite include_addon.
    destruct (related_cases (twitchAddon db) "addonId" row) as [Hr|[addon Hr]];
      rewrite Hr; simpl.
    { split; [intros _; right; exists row; by rewrite Hr | done]. }
    destruct (JSON_parse (get addon "configSchema")) as [schema|] eqn:Hs; simpl.
    + rewrite get_insert_ne, include_configJSON by done.
      destruct (JSON_parse (get row "configJSON")) as [config|] eqn:Hc; simpl.
      * split; [discriminate |].
        intros [[? ?]|(row0 & _ & [= <-] & Hbad)]; [discriminate |].
        rewrite Hr in Hbad. destruct Hbad; congruence.
      * split; [| done]. intros _. right. exists row. rewrite Hr.
        split_and!; [done | done | by right].
    + split; [| done]. intros _. right. exists row. rewrite Hr.
      split_and!; [done | done | by left].
  - split; [discriminate | intros [[? ?]|(? & _ & ? & _)]; discriminate].
Qed.

(** *** The timestamp of the list entries *)

Lemma forEach_succeeds {A} (f : A -> Exc A) (l : list A) :
  (forall x, x ∈ l -> exists y, f x = Return y) ->
  exists l', forEach f l = Return l'.
Proof.
  induction l as [|x l IH]; intros Hf; simpl; [by eexists |].
  destruct (Hf x) as [y Hy]; [apply list_elem_of_here |].
  destruct IH as [l' Hl'].
  { intros x' Hx'. by apply Hf, list_elem_of_further. }
  rewrite Hy. simpl. rewrite Hl'. by eexists.
Qed.

(** [decorate] goes through on a row with a ksuid and a schema that
    parses, against a table of rows whose settings parse. *)
Lemma decorate_succeeds (userAddons row : object) :
  row_decorates row ->
  (forall k v, userAddons !! k = Some v ->
     exists userInfo, v = VObj userInfo /\ settings_parse userInfo) ->
  exists e, decorate userAddons row = Return e.
Proof.
  intros [[t Ht] Hschema] Htable.
  unfold decorate, parse_ksuid, parse_json. rewrite Ht. simpl.
  rewrite get_insert_eq, is_true_VBool, get_insert_ne by done.
  assert (forall e2 : object,
            get e2 "configSchema" = get row "configSchema" ->
            exists e,
              (if is_defined (get e2 "configSchema") then
                 or_throw SyntaxError (JSON_parse (get e2 "configSchema"))
                 ≫= (fun schema => Return (<["configSchema" := schema]> e2))
               else Return e2) = Return e) as Hlast.
  { intros e2 ->. destruct (is_defined (get row "configSchema")) eqn:Hd; [| by eexists].
    destruct (Hschema eq_refl) as [schema ->]. simpl. by eexists. }
  assert (get userAddons (to_string (get row "addonId")) = VUndefined \/
          exists ui c, get userAddons (to_string (get row "addonId")) = VObj ui /\
                       JSON_parse (get ui "configJSON") = Some c)
    as [Hg|(ui & c & Hg & Hc)].
  { unfold get at 1 3.
    destruct (userAddons !! to_string (get row "addonId")) as [v|] eqn:Hv; [| by left].
    destruct (Htable _ _ Hv) as (ui & -> & [c Hc]). right. by exists ui, c. }
  - rewrite Hg. simpl. apply Hlast. by rewrite !get_insert_ne.
  - rewrite Hg. simpl. rewrite Hc. simpl.
    destruct (is_str "" (get ui "overlayId")); apply Hlast; by rewrite !get_insert_ne.
Qed.

Lemma fetchUserAddons_succeeds (db : Db) (req : Request) :
  getAuthorizedUser req = None \/
  (fault db UserAddonsFindMany = None /\
   forall row, row ∈ twitchUserAddons db -> settings_parse row) ->
  exists userAddons,
    fetchUserAddons db req = Return userAddons /\
    forall k v, userAddons !! k = Some v ->
      exists userInfo, v = VObj userInfo /\ settings_parse userInfo.
Proof.
  intros [Hreq|[Hf Hrows]].
  - exists ∅. split; [by apply fetchUserAddons_nobody |].
    intros k v Hv. by rewrite lookup_empty in Hv.
  - unfold fetchUserAddons, twitchUserAddons_findMany_userId, run. rewrite Hf.
    destruct (getAuthorizedUser req) as [u|]; simpl.
    + eexists. split; [reflexivity |]. intros k v Hv.
      apply index_by_addonId_lookup in Hv as (row & -> & Hin & _).
      apply elem_of_rows_of_user in Hin as [Hin _]. exists row. split; [done |].
      by apply Hrows.
    + exists ∅. split; [done |]. intros k v Hv. by rewrite lookup_empty in Hv.
Qed.

(** C10. Every entry of the array [GET /api/v1/addons] answers with
    carries a [timestamp] property that the handler adds: each entry
    comes from an addon row, and whatever that row holds, the entry's
    [timestamp] is the creation time [ksuid.parse] reads from the row's
    [addonId], which is also the entry's.  With or without an
    authenticated user the handler does answer, with one such entry for
    every row, as soon as its queries go through, every addon row has a
    ksuid and a schema that parses, and (for a user) the stored settings
    parse. *)
Theorem list_entries_carry_timestamp (db : Db) (req : Request) :
  (forall body, getAddonList db req = Return (Json body) ->
     exists entries decorated,
       body = VArr (VObj <$> entries) /\
       entries ≡ₚ decorated /\
       Forall2 (fun row e =>
                  exists t, ksuid_timestamp (get row "addonId") = Some t /\
                            get e "addonId" = get row "addonId" /\
                            e !! "timestamp" = Some (VNum t))
               (twitchAddon db) decorated /\
       Forall (fun e => exists t, ksuid_timestamp (get e "addonId") = Some t /\
                                  e !! "timestamp" = Some (VNum t)) entries) /\
  (fault db AddonFindMany = None ->
   (forall row, row ∈ twitchAddon db -> row_decorates row) ->
   getAuthorizedUser req = None \/
   (fault db UserAddonsFindMany = None /\
    forall row, row ∈ twitchUserAddons db -> settings_parse row) ->
   exists entries,
     getAddonList db req = Return (Json (VArr (VObj <$> entries))) /\
     length entries = length (twitchAddon db) /\
     Forall (fun e => exists t, ksuid_timestamp (get e "addonId") = Some t /\
                                e !! "timestamp" = Some (VNum t)) entries).
Proof.
  assert (forall body, getAddonList db req = Return (Json body) ->
     exists entries decorated,
       body = VArr (VObj <$> entries) /\
       entries ≡ₚ decorated /\
       Forall2 (fun row e =>
                  exists t, ksuid_timestamp (get row "addonId") = Some t /\
                            get e "addonId" = get row "addonId" /\
                            e !! "timestamp" = Some (VNum t))
               (twitchAddon db) decorated /\
       Forall (fun e => exists t, ksuid_timestamp (get e "addonId") = Some t /\
                                  e !! "timestamp" = Some (VNum t)) entries) as Hpost.
  { intros body E. apply getAddonList_Json in E as (ua & res & _ & _ & Hd & ->).
    exists (sort by_timestamp res), res. split_and!; [done | apply sort_perm | |].
    - eapply Forall2_impl; [exact Hd |]. intros row e He.
      destruct (decorate_timestamp _ _ _ He) as (t & Ht & Hts).
      exists t. split_and!; [done | by apply (decorate_addonId _ _ _ He) | done].
    - rewrite sort_perm. apply decorated_all_timestamped in Hd.
      eapply Forall_impl; [exact Hd |]. intros e (t & Ht & He). eauto. }
  split; [exact Hpost |].
  intros Hf Hrows Huser.
  destruct (fetchUserAddons_succeeds db req Huser) as (ua & Hua & Htable).
  destruct (forEach_succeeds (decorate ua) (twitchAddon db)) as [res Hres].
  { intros row Hrow. apply decorate_succeeds; [by apply Hrows | done]. }
  apply forEach_Return in Hres.
  assert (getAddonList db req
          = Return (Json (VArr (VObj <$> sort by_timestamp res)))) as E.
  { apply getAddonList_Json. by exists ua, res. }
  exists (sort by_timestamp res). split; [done |]. split.
  - rewrite sort_perm. symmetry. by apply (Forall2_length _ _ _ Hres).
  - rewrite sort_perm. apply decorated_all_timestamped in Hres.
    eapply Forall_impl; [exact Hres |]. intros e (t & Ht & He). eauto.
Qed.

End Properties.

(** ** The handlers on the sample data *)

Example ksuid_ts_K1 : ksuid_ts (VStr K1) = Some 107608047.
Proof. reflexivity. Qed.

Example list_db0_nobody :
  @getAddonList stand_in db0 (request "" "" None) = Return (Json list_for_nobody).
Proof. vm_compute. reflexivity. Qed.

Example list_db0_u1 :
  @getAddonList stand_in db0 (request "" "" (Some "u1")) = Return (Json list_for_u1).
Proof. vm_compute. reflexivity. Qed.

Example alerts_db0_nobody :
  @getAddonById stand_in db0 (request "alerts" "" None)
  = Return (Json (VObj (alerts_found false))).
Proof. vm_compute. reflexivity. Qed.

Example alerts_db0_u1 :
  @getAddonById stand_in db0 (request K1 "" (Some "u1")) = Return (Json alerts_for_u1).
Proof. vm_compute. reflexivity. Qed.

Example chat_db0_u2 :
  @getAddonById stand_in db0 (request "chat" "" (Some "u2")) = Return (Json chat_for_u2).
Proof. vm_compute. reflexivity. Qed.

Example overlay_db0_ov9 :
  @getOverlayInfo stand_in db0 (request "" "ov9" None) = Return (Json overlay_ov9).
Proof. vm_compute. reflexivity. Qed.

Example overlay_db_down :
  @getOverlayInfo stand_in db_down (request "" "ov9" None) = Return JsonFailure.
Proof. reflexivity. Qed.

Example overlay_route :
  dispatch (@addOverlayAPIs stand_in []) db0 "/api/v1/overlay/ov9" None
  = Some (Return (Json overlay_ov9)).
Proof. vm_compute. reflexivity. Qed.

Example addon_route :
  dispatch (@addAddonAPIs stand_in []) db0 "/api/v1/addons/chat" (Some "u2")
  = Some (Return (Json chat_for_u2)).
Proof. vm_compute. reflexivity. Qed.

Example list_db0_u2 :
  @getAddonList stand_in db0 (request "" "" (Some "u2")) = Return (Json list_for_u2).
Proof. vm_compute. reflexivity. Qed.

Example list_db_twice :
  @getAddonList stand_in db_twice (request "" "" None) = Return (Json list_twice).
Proof. vm_compute. reflexivity. Qed.

(** The sample database meets the constraints of the schema. *)
Lemma db0_addonId_is_text : addonId_is_text db0.
Proof.
  intros row Hin. simpl in Hin.
  apply elem_of_cons in Hin as [->|Hin]; [by exists K1 |].
  apply elem_of_cons in Hin as [->|Hin]; [by exists K3 |].
  by apply not_elem_of_nil in Hin.
Defined.

Lemma db0_unique_userId_addonId : unique_userId_addonId db0.
Proof.
  intros r1 r2 H1 H2 Hu _. simpl in H1, H2.
  apply elem_of_cons in H1 as [->|H1]; [| apply elem_of_cons in H1 as [->|H1]];
    [| | by apply not_elem_of_nil in H1];
    (apply elem_of_cons in H2 as [->|H2]; [| apply elem_of_cons in H2 as [->|H2]];
     [| | by apply not_elem_of_nil in H2]);
    try reflexivity; vm_compute in Hu; discriminate Hu.
Defined.

Lemma db0_u1_has_alerts : user_has db0 "u1" K1 u1_alerts.
Proof. split; [apply list_elem_of_here | split; reflexivity]. Defined.

Lemma db0_u2_has_chat : user_has db0 "u2" K3 u2_chat.
Proof.
  split; [apply list_elem_of_further, list_elem_of_here | split; reflexivity].
Defined.

Lemma db0_no_overlayUrl_column (r : object) :
  r ∈ twitchAddon db0 -> r !! "overlayUrl" = None.
Proof.
  intros Hin. simpl in Hin.
  apply elem_of_cons in Hin as [->|Hin]; [reflexivity |].
  apply elem_of_cons in Hin as [->|Hin]; [reflexivity |].
  by apply not_elem_of_nil in Hin.
Defined.

(** ** The properties on the sample data *)

Lemma overlay_404_unless_one_row_witness :
  (length (rows_with_overlayId db_twice "ov9") = 2%nat /\
   @getOverlayInfo stand_in db_twice (request "" "ov9" None)
   = Return (Json404 "no such overlay 'ov9'")) /\
  (length (rows_with_overlayId db0 "zz") = 0%nat /\
   @getOverlayInfo stand_in db0 (request "" "zz" None)
   = Return (Json404 "no such overlay 'zz'")) /\
  length (rows_with_overlayId db0 "ov9") = 1%nat.
Proof.
  split; [| split].
  - split; [reflexivity |].
    apply (proj1 (@overlay_404_unless_one_row stand_in db_twice (request "" "ov9" None)));
      [reflexivity | vm_compute; discriminate].
  - split; [reflexivity |].
    apply (proj1 (@overlay_404_unless_one_row stand_in db0 (request "" "zz" None)));
      [reflexivity | vm_compute; discriminate].
  - apply (proj2 (@overlay_404_unless_one_row stand_in db0 (request "" "ov9" None))
             overlay_ov9).
    vm_compute. reflexivity.
Defined.

Lemma list_sorted_by_creation_witness :
  exists entries,
    list_twice = VArr (VObj <$> entries) /\
    forall (i : nat) (a b : object),
      entries !! i = Some a -> entries !! S i = Some b ->
      exists ta tb,
        ksuid_ts (get a "addonId") = Some ta /\
        ksuid_ts (get b "addonId") = Some tb /\
        ta <= tb.
Proof.
  apply (@list_sorted_by_creation stand_in db_twice (request "" "" None) list_twice).
  vm_compute. reflexivity.
Defined.


Lemma overlay_body_public_witness :
  @getOverlayInfo everyone_is_root db0 (request "chat" "ov9" (Some "u1"))
  = @getOverlayInfo stand_in db0 (request "" "ov9" None) /\
  exists row addon schema config e,
    rows_with_overlayId db0 "ov9" = [row] /\
    related (twitchAddon db0) "addonId" row = VObj addon /\
    json_literal (get addon "configSchema") = Some schema /\
    json_literal (get row "configJSON") = Some config /\
    overlay_ov9 = VObj e /\
    e !! "addon" = Some (VObj (<["configSchema" := schema]> addon)) /\
    e !! "owner" = Some (related (twitchUser db0) "userId" row) /\
    e !! "configJSON" = Some config /\
    forall f, f ∉ ["addon"; "owner"; "configJSON"] -> e !! f = row !! f.
Proof.
  split.
  - apply (proj1 (@overlay_body_public stand_in db0 (request "" "ov9" None))
             everyone_is_root (request "chat" "ov9" (Some "u1")));
      reflexivity.
  - apply (proj2 (@overlay_body_public stand_in db0 (request "" "ov9" None))).
    vm_compute. reflexivity.
Defined.


Lemma handlers_catch_everything_witness :
  (exists r, @getAddonList stand_in db_down (request "" "" None) = Return r) /\
  @getAddonList stand_in db_down (request "" "" None) = Return JsonFailure /\
  @getAddonById stand_in db0 (request "nope" "" None)
  = Return (dbErrResponse (NotFound "no such addon 'nope'")).
Proof.
  assert ((@getAddonList_try stand_in, @getAddonList stand_in) ∈ @api stand_in) as Hlist.
  { do 2 apply list_elem_of_further. apply list_elem_of_here. }
  assert ((@getAddonById_try stand_in, @getAddonById stand_in) ∈ @api stand_in) as Hkey.
  { do 3 apply list_elem_of_further. apply list_elem_of_here. }
  split; [| split].
  - apply (@handlers_catch_everything stand_in _ _ db_down (request "" "" None) Hlist).
  - apply (proj1 (proj2 (@handlers_catch_everything stand_in _ _
                           db_down (request "" "" None) Hlist))
             (DbError "connection refused")).
    reflexivity.
  - apply (proj1 (proj2 (@handlers_catch_everything stand_in _ _
                           db0 (request "nope" "" None) Hkey))).
    reflexivity.
Defined.

Lemma overlayUrl_of_empty_overlayId_witness :
  (exists entries,
     list_for_u1 = VArr (VObj <$> entries) /\
     forall e, e ∈ entries -> get e "addonId" = VStr K1 -> e !! "overlayUrl" = None) /\
  (exists e, alerts_for_u1 = VObj e /\
             (get e "addonId" = VStr K1 -> e !! "overlayUrl" = Some (VStr ""))).
Proof.
  destruct (@overlayUrl_of_empty_overlayId stand_in db0
              (request "" "" (Some "u1")) (request K1 "" (Some "u1"))
              "u1" K1 u1_alerts eq_refl eq_refl
              db0_addonId_is_text db0_unique_userId_addonId db0_u1_has_alerts
              eq_refl db0_no_overlayUrl_column)
    as [Hlist Hkey].
  split; [apply Hlist | apply Hkey]; vm_compute; reflexivity.
Defined.

(** C2. Without an authenticated user the handlers are to add none of
    [installed], [config] and [overlayUrl].  They do add [installed]: on
    the sample database, whose addon rows have no such column, a request
    without a token gets [installed = false] on every entry of the list
    and on the record of the lookup; [config] and [overlayUrl] are
    absent. *)
Theorem installed_written_without_user :
  token_user (request "alerts" "" None) = None /\
  Forall (fun row : object => row !! "installed" = None) (twitchAddon db0) /\
  @getAddonList stand_in db0 (request "" "" None)
  = Return (Json (VArr [VObj chat_listed; VObj (alerts_listed false)])) /\
  chat_listed !! "installed" = Some (VBool false) /\
  alerts_listed false !! "installed" = Some (VBool false) /\
  alerts_listed false !! "config" = None /\
  alerts_listed false !! "overlayUrl" = None /\
  @getAddonById stand_in db0 (request "alerts" "" None)
  = Return (Json (VObj (alerts_found false))) /\
  alerts_found false !! "installed" = Some (VBool false) /\
  alerts_found false !! "config" = None /\
  alerts_found false !! "overlayUrl" = None.
Proof.
  split_and!; try reflexivity; try (vm_compute; reflexivity).
  repeat constructor.
Qed.

(** ** The further properties on the sample data *)

Lemma anonymous_ignores_user_addons_witness :
  @getAddonList stand_in db0 (request "alerts" "" None)
  = @getAddonList stand_in db0_without_user_addons (request "alerts" "" None) /\
  @getAddonById stand_in db0 (request "alerts" "" None)
  = @getAddonById stand_in db0_without_user_addons (request "alerts" "" None).
Proof.
  apply (@anonymous_ignores_user_addons stand_in db0 db0_without_user_addons
           (request "alerts" "" None)); reflexivity.
Defined.

Lemma db0_no_proto_key (row : object) :
  row ∈ twitchUserAddons db0 -> get row "userId" = VStr "u1" ->
  @to_string stand_in (get row "addonId") <> "__proto__".
Proof.
  intros Hin Hu. simpl in Hin.
  apply elem_of_cons in Hin as [->|Hin]; [vm_compute; discriminate |].
  apply elem_of_cons in Hin as [->|Hin]; [vm_compute; discriminate |].
  by apply not_elem_of_nil in Hin.
Defined.

Lemma fetchUserAddons_only_own_rows_witness :
  @fetchUserAddons stand_in db0 (request "" "" (Some "u1"))
  = Return {[K1 := VObj u1_alerts]} /\
  (forall k v, ({[K1 := VObj u1_alerts]} : object) !! k = Some v ->
     exists row, v = VObj row /\ row ∈ twitchUserAddons db0 /\
                 get row "userId" = VStr "u1" /\
                 @to_string stand_in (get row "addonId") = k) /\
  (forall row, row ∈ twitchUserAddons db0 -> get row "userId" = VStr "u1" ->
     is_Some (({[K1 := VObj u1_alerts]} : object)
                !! @to_string stand_in (get row "addonId"))).
Proof.
  split; [vm_compute; reflexivity |].
  apply (@fetchUserAddons_only_own_rows stand_in db0 (request "" "" (Some "u1")) "u1").
  - reflexivity.
  - exact db0_no_proto_key.
  - vm_compute. reflexivity.
Defined.

Lemma fetchUserAddons_last_row_wins_witness :
  exists userAddons,
    @fetchUserAddons stand_in db_doubled (request "" "" (Some "u1")) = Return userAddons /\
    userAddons !! @to_string stand_in (get u1_alerts_again "addonId")
    = Some (VObj u1_alerts_again).
Proof.
  apply (@fetchUserAddons_last_row_wins stand_in db_doubled (request "" "" (Some "u1"))
           "u1" [u1_alerts] [] u1_alerts_again).
  - reflexivity.
  - reflexivity.
  - vm_compute. reflexivity.
  - intros r Hr. by apply not_elem_of_nil in Hr.
Defined.

Lemma list_has_every_addon_witness :
  exists entries decorated,
    list_for_u1 = VArr (VObj <$> entries) /\
    entries ≡ₚ decorated /\
    Forall2 (fun row e => forall k, k ∉ decorated_fields -> e !! k = row !! k)
            (twitchAddon db0) decorated.
Proof.
  apply (@list_has_every_addon stand_in db0 (request "" "" (Some "u1")) list_for_u1).
  vm_compute. reflexivity.
Defined.

Lemma list_never_404_witness :
  @getAddonList stand_in db_down (request "" "" (Some "u1")) <> Return (Json404 "down").
Proof.
  apply (proj1 (@list_never_404 stand_in db_down (request "" "" (Some "u1")))).
Defined.

Lemma list_fails_on_bad_row_witness :
  @getAddonList stand_in db_broken (request "" "" None) = Return JsonFailure.
Proof.
  apply (@list_fails_on_bad_row stand_in db_broken (request "" "" None) addon_broken).
  - apply list_elem_of_further, list_elem_of_here.
  - left. reflexivity.
Defined.

Lemma list_configSchema_witness :
  exists entries,
    list_bare = VArr (VObj <$> entries) /\
    forall e, e ∈ entries ->
      exists row, row ∈ twitchAddon db_bare /\ get e "addonId" = get row "addonId" /\
        if is_defined (get row "configSchema") then
          exists schema, json_literal (get row "configSchema") = Some schema /\
                         e !! "configSchema" = Some schema
        else e !! "configSchema" = row !! "configSchema".
Proof.
  apply (@list_configSchema stand_in db_bare (request "" "" None) list_bare).
  vm_compute. reflexivity.
Defined.

Lemma list_same_for_everyone_witness :
  exists entries1 entries2,
    list_for_nobody = VArr (VObj <$> entries1) /\
    list_for_u1 = VArr (VObj <$> entries2) /\
    Forall2 same_addon entries1 entries2.
Proof.
  apply (@list_same_for_everyone stand_in db0
           (request "" "" None) (request "" "" (Some "u1")));
    vm_compute; reflexivity.
Defined.

Lemma lookup_fails_without_schema_witness :
  @getAddonById stand_in db_bare (request "bare" "" None) = Return JsonFailure.
Proof.
  apply (@lookup_fails_without_schema stand_in db_bare (request "bare" "" None) addon_bare).
  - reflexivity.
  - vm_compute. reflexivity.
  - reflexivity.
Defined.

Lemma db0_u1_has_no_chat (row : object) :
  row ∈ twitchUserAddons db0 -> get row "userId" = VStr "u1" ->
  @to_string stand_in (get row "addonId") <> K3.
Proof.
  intros Hin Hu. simpl in Hin.
  apply elem_of_cons in Hin as [->|Hin]; [vm_compute; discriminate |].
  apply elem_of_cons in Hin as [->|Hin]; [vm_compute in Hu; discriminate Hu |].
  by apply not_elem_of_nil in Hin.
Defined.

Lemma not_installed_addon_fields_witness :
  (exists entries,
     list_for_u1 = VArr (VObj <$> entries) /\
     forall e, e ∈ entries -> get e "addonId" = VStr K3 ->
       e !! "installed" = Some (VBool false) /\
       exists r, r ∈ twitchAddon db0 /\
                 e !! "config" = r !! "config" /\
                 e !! "overlayUrl" = r !! "overlayUrl") /\
  (exists e r,
     VObj (<["installed" := VBool false]> (<["configSchema" := VObj ∅]> addon_chat))
     = VObj e /\ r ∈ twitchAddon db0 /\
     (get e "addonId" = VStr K3 ->
      e !! "installed" = Some (VBool false) /\
      e !! "config" = r !! "config" /\
      e !! "overlayUrl" = r !! "overlayUrl")).
Proof.
  destruct (@not_installed_addon_fields stand_in db0
              (request "" "" (Some "u1")) (request "chat" "" (Some "u1")) "u1" K3
              eq_refl eq_refl db0_u1_has_no_chat) as [Hlist Hkey].
  split; [apply Hlist | apply Hkey]; vm_compute; reflexivity.
Defined.

Lemma db0_chat_is_alone (r : object) :
  r ∈ twitchAddon db0 ->
  slug_or_id "chat" r = true \/ slug_or_id K3 r = true -> r = addon_chat.
Proof.
  intros Hin Hm. simpl in Hin.
  apply elem_of_cons in Hin as [->|Hin].
  { vm_compute in Hm. destruct Hm; discriminate. }
  apply elem_of_cons in Hin as [->|Hin]; [reflexivity |].
  by apply not_elem_of_nil in Hin.
Defined.

Lemma lookup_by_slug_or_by_id_witness :
  @getAddonById stand_in db0 (request "chat" "" (Some "u2"))
  = @getAddonById stand_in db0 (request K3 "" (Some "u2")).
Proof.
  apply (@lookup_by_slug_or_by_id stand_in db0
           (request "chat" "" (Some "u2")) (request K3 "" (Some "u2")) addon_chat).
  - reflexivity.
  - apply list_elem_of_further, list_elem_of_here.
  - reflexivity.
  - reflexivity.
  - exact db0_chat_is_alone.
Defined.

Lemma db0_unique_addonId : unique_addonId db0.
Proof.
  intros r1 r2 H1 H2 Ha. simpl in H1, H2.
  apply elem_of_cons in H1 as [->|H1]; [| apply elem_of_cons in H1 as [->|H1]];
    [| | by apply not_elem_of_nil in H1];
    (apply elem_of_cons in H2 as [->|H2]; [| apply elem_of_cons in H2 as [->|H2]];
     [| | by apply not_elem_of_nil in H2]);
    try reflexivity; vm_compute in Ha; discriminate Ha.
Defined.

Lemma overlay_of_overlayUrl_witness :
  rows_with_overlayId db0 "ov9" = [u2_chat] /\
  @getAddonById stand_in db0 (request "chat" "" (Some "u2"))
  = Return (Json (VObj chat_record_u2)) /\
  chat_record_u2 !! "overlayUrl" = Some (VStr ("https://overlay.example" +:+ "/" +:+ "ov9")) /\
  exists o,
    @getOverlayInfo stand_in db0 (request "" "ov9" None) = Return (Json (VObj o)) /\
    get o "userId" = VStr "u2" /\
    get o "addonId" = VStr K3 /\
    o !! "configJSON" = chat_record_u2 !! "config".
Proof.
  split; [reflexivity |]. split; [vm_compute; reflexivity |].
  apply (@overlay_of_overlayUrl stand_in db0
           (request "chat" "" (Some "u2")) (request "" "ov9" None)
           "u2" K3 "ov9" u2_chat chat_record_u2).
  - reflexivity.
  - exact db0_unique_userId_addonId.
  - exact db0_unique_addonId.
  - exact db0_u2_has_chat.
  - reflexivity.
  - discriminate.
  - vm_compute. reflexivity.
  - reflexivity.
  - reflexivity.
  - reflexivity.
  - reflexivity.
Defined.

Lemma overlay_failure_witness :
  @getOverlayInfo stand_in db_down (request "" "ov9" None) = Return JsonFailure.
Proof.
  apply (proj2 (@overlay_failure stand_in db_down (request "" "ov9" None))).
  left. by exists "connection refused".
Defined.

Lemma overlay_route_binds_id_witness :
  dispatch (@addOverlayAPIs stand_in []) db0 ("/api/v1/overlay/" +:+ "ov9") None
  = Some (@getOverlayInfo stand_in db0 (routed "" "ov9" None)).
Proof.
  apply (@overlay_route_binds_id stand_in db0 "ov9" None);
    [reflexivity | discriminate].
Defined.

Lemma addon_routes_witness :
  dispatch (@addAddonAPIs stand_in []) db0 ("/api/v1/addons/" +:+ "chat") (Some "u2")
  = Some (@getAddonById stand_in db0 (routed "chat" "" (Some "u2"))).
Proof.
  apply (proj2 (proj2 (@addon_routes stand_in db0 "chat" (Some "u2"))));
    [reflexivity | discriminate].
Defined.

Lemma db0_rows_decorate (row : object) :
  row ∈ twitchAddon db0 -> @row_decorates stand_in row.
Proof.
  intros Hin. simpl in Hin.
  apply elem_of_cons in Hin as [->|Hin];
    [split; [| intros _]; eexists; vm_compute; reflexivity |].
  apply elem_of_cons in Hin as [->|Hin];
    [split; [| intros _]; eexists; vm_compute; reflexivity |].
  by apply not_elem_of_nil in Hin.
Defined.

Lemma db0_settings_parse (row : object) :
  row ∈ twitchUserAddons db0 -> @settings_parse stand_in row.
Proof.
  intros Hin. simpl in Hin.
  apply elem_of_cons in Hin as [->|Hin]; [eexists; vm_compute; reflexivity |].
  apply elem_of_cons in Hin as [->|Hin]; [eexists; vm_compute; reflexivity |].
  by apply not_elem_of_nil in Hin.
Defined.

Lemma db_stamped_rows_decorate (row : object) :
  row ∈ twitchAddon db_stamped -> @row_decorates stand_in row.
Proof.
  intros Hin. simpl in Hin.
  apply elem_of_cons in Hin as [->|Hin];
    [split; [| intros _]; eexists; vm_compute; reflexivity |].
  by apply not_elem_of_nil in Hin.
Defined.

Lemma list_entries_carry_timestamp_witness :
  Forall (fun row : object => row !! "timestamp" = None) (twitchAddon db0) /\
  (exists entries,
     @getAddonList stand_in db0 (request "" "" None)
     = Return (Json (VArr (VObj <$> entries))) /\
     length entries = length (twitchAddon db0) /\
     Forall (fun e => exists t, ksuid_ts (get e "addonId") = Some t /\
                                e !! "timestamp" = Some (VNum t)) entries) /\
  (exists entries,
     @getAddonList stand_in db0 (request "" "" (Some "u1"))
     = Return (Json (VArr (VObj <$> entries))) /\
     length entries = length (twitchAddon db0) /\
     Forall (fun e => exists t, ksuid_ts (get e "addonId") = Some t /\
                                e !! "timestamp" = Some (VNum t)) entries) /\
  addon_stamped !! "timestamp" = Some (VNum 0) /\
  (exists entries,
     @getAddonList stand_in db_stamped (request "" "" None)
     = Return (Json (VArr (VObj <$> entries))) /\
     length entries = length (twitchAddon db_stamped) /\
     Forall (fun e => exists t, ksuid_ts (get e "addonId") = Some t /\
                                e !! "timestamp" = Some (VNum t)) entries) /\
  (exists entries decorated,
     list_for_u1 = VArr (VObj <$> entries) /\
     entries ≡ₚ decorated /\
     Forall2 (fun row e =>
                exists t, ksuid_ts (get row "addonId") = Some t /\
                          get e "addonId" = get row "addonId" /\
                          e !! "timestamp" = Some (VNum t))
             (twitchAddon db0) decorated /\
     Forall (fun e => exists t, ksuid_ts (get e "addonId") = Some t /\
                                e !! "timestamp" = Some (VNum t)) entries).
Proof.
  split_and!.
  - repeat constructor.
  - apply (proj2 (@list_entries_carry_timestamp stand_in db0 (request "" "" None)));
      [reflexivity | exact db0_rows_decorate | left; reflexivity].
  - apply (proj2 (@list_entries_carry_timestamp stand_in db0 (request "" "" (Some "u1"))));
      [reflexivity | exact db0_rows_decorate |].
    right. split; [reflexivity | exact db0_settings_parse].
  - reflexivity.
  - apply (proj2 (@list_entries_carry_timestamp stand_in db_stamped (request "" "" None)));
      [reflexivity | exact db_stamped_rows_decorate | left; reflexivity].
  - apply (proj1 (@list_entries_carry_timestamp stand_in db0 (request "" "" (Some "u1")))
             list_for_u1).
    vm_compute. reflexivity.
Defined.

Example list_db_stamped :
  @getAddonList stand_in db_stamped (request "" "" None)
  = Return (Json (VArr [VObj (<["installed" := VBool false]>
                                (<["configSchema" := VObj ∅]>
                                   (<["timestamp" := VNum 107607557]> addon_stamped)))])).
Proof. vm_compute. reflexivity. Qed.
